(** * OpenAIAPI plugin (plugins/OpenAIAPI/main.py): a shallow embedding

    The plugin is a small HTTP gateway.  Its request handlers and its
    lifecycle hooks are embedded as functions in a state-and-exception monad
    that also records the effects the code performs (log lines, clock reads,
    the outbound POST, the server thread, messages to admins).

    Conventions.
    - A Python [str] is a [string]; HTTP header values are latin-1 decoded,
      so one character is one byte.  Non-ASCII literals of the source are
      kept as their UTF-8 bytes.
    - A Python [dict] is an insertion-ordered association list ([pydict]).
    - JSON / TOML scalars: [int] is [Z], [float] is a binary64 [float].
    - An instance attribute that may not have been assigned yet is an
      [attr]; reading it while unset raises [AttributeError]. *)

From Stdlib Require Import String Ascii ZArith List Bool Arith Lia Floats DecimalString.
Import ListNotations.
Open Scope list_scope.
Open Scope string_scope.

(* ===================================================================== *)
(** ** Python strings *)
(* ===================================================================== *)

Module PyStr.

(** [s.startswith(p)] *)
Fixpoint startswith (p s : string) : bool :=
  match p with
  | EmptyString => true
  | String a p' =>
      match s with
      | EmptyString => false
      | String b s' => Ascii.eqb a b && startswith p' s'
      end
  end.

(** [sub in s] for two strings: [sub] occurs somewhere in [s]. *)
Fixpoint contains (sub s : string) : bool :=
  startswith sub s ||
  match s with
  | EmptyString => false
  | String _ s' => contains sub s'
  end.

(** The scan of [s.replace(old, new)] for a non-empty [old]: left to right,
    occurrences do not overlap.  [skip] counts the characters of the
    occurrence found last that are still to be consumed. *)
Fixpoint replace_from (old new : string) (skip : nat) (s : string) : string :=
  match s with
  | EmptyString => EmptyString
  | String c s' =>
      match skip with
      | S k => replace_from old new k s'
      | O =>
          if startswith old s
          then new ++ replace_from old new (String.length old - 1) s'
          else String c (replace_from old new 0 s')
      end
  end.

(** [s.replace(old, new)], for [old] non-empty (the only use in the source
    has [old = "Bearer "]). *)
Definition replace (old new s : string) : string :=
  replace_from old new 0 s.

(** [c.lower()] on one latin-1 character of a header name (ASCII letters). *)
Definition lower_ascii (c : ascii) : ascii :=
  let n := nat_of_ascii c in
  if (65 <=? n)%nat && (n <=? 90)%nat then ascii_of_nat (n + 32) else c.

(** [s.lower()] *)
Fixpoint lower (s : string) : string :=
  match s with
  | EmptyString => EmptyString
  | String c s' => String (lower_ascii c) (lower s')
  end.

(** Truth value of a string: [if s:] holds when [s] is not empty. *)
Definition truthy (s : string) : bool :=
  match s with EmptyString => false | String _ _ => true end.

End PyStr.

(* ===================================================================== *)
(** ** Python dicts and JSON values *)
(* ===================================================================== *)

(** A dict with string keys: pairs in insertion order, keys unique. *)
Definition pydict (V : Type) : Type := list (string * V).

Section PyDict.
Context {V : Type}.

(** [d.get(k)] as an option; [None] when the key is absent. *)
Fixpoint dict_get (k : string) (d : pydict V) : option V :=
  match d with
  | [] => None
  | (k', v) :: d' => if String.eqb k' k then Some v else dict_get k d'
  end.

(** [k in d] *)
Definition dict_contains (k : string) (d : pydict V) : bool :=
  match dict_get k d with Some _ => true | None => false end.

(** [d[k] = v]: an existing key keeps its position, a new key goes last. *)
Fixpoint dict_set (k : string) (v : V) (d : pydict V) : pydict V :=
  match d with
  | [] => [(k, v)]
  | (k', v') :: d' =>
      if String.eqb k' k then (k', v) :: d' else (k', v') :: dict_set k v d'
  end.

(** The effect of [if k not in d: d[k] = v] on a dict. *)
Definition dict_setdefault (k : string) (v : V) (d : pydict V) : pydict V :=
  if dict_contains k d then d else dict_set k v d.

End PyDict.

(** A JSON (or TOML) number as Python holds it. *)
Inductive number : Type :=
| NInt (z : Z)
| NFloat (f : float).

(** [n > 0] *)
Definition number_gt0 (n : number) : bool :=
  match n with
  | NInt z => (0 <? z)%Z
  | NFloat f => PrimFloat.ltb 0%float f
  end.

(** What [json.loads] returns and [json.dumps] accepts. *)
#[warnings="-register-all"]
Inductive jvalue : Type :=
| JNull
| JBool (b : bool)
| JNum (n : number)
| JStr (s : string)
| JArr (items : list jvalue)
| JObj (members : list (string * jvalue)).

(** [v == k] for a string [k]: only the string [k] itself is equal to it. *)
Definition jvalue_is_str (k : string) (v : jvalue) : bool :=
  match v with
  | JStr s => String.eqb s k
  | _ => false
  end.

(** [type(v).__name__] *)
Definition type_name (v : jvalue) : string :=
  match v with
  | JNull => "NoneType"
  | JBool _ => "bool"
  | JNum (NInt _) => "int"
  | JNum (NFloat _) => "float"
  | JStr _ => "str"
  | JArr _ => "list"
  | JObj _ => "dict"
  end.

(* ===================================================================== *)
(** ** Exceptions and the monad of the handlers *)
(* ===================================================================== *)

(** A raised object.  [except Exception] catches the instances of
    [Exception]; [KeyboardInterrupt], [SystemExit] and
    [asyncio.CancelledError] derive from [BaseException] only. *)
Inductive exn_base : Type :=
| FromException
| FromBaseExceptionOnly.

Record pyexn : Type := mkExn {
  exn_base_of : exn_base;
  exn_class : string;      (* type(e).__name__ *)
  exn_str : string         (* str(e) *)
}.

Definition is_Exception (e : pyexn) : bool :=
  match exn_base_of e with
  | FromException => true
  | FromBaseExceptionOnly => false
  end.

Definition TypeError (msg : string) : pyexn := mkExn FromException "TypeError" msg.
Definition AttributeError (msg : string) : pyexn :=
  mkExn FromException "AttributeError" msg.

(** The result of an expression that may raise. *)
Definition result (A : Type) : Type := (pyexn + A)%type.

(** The outbound request handed to [session.post]. *)
Record OutboundRequest : Type := mkOutbound {
  out_url : string;
  out_headers : pydict string;
  out_json : jvalue;
  out_proxy : option string
}.

(** Effects the code performs, in the order it performs them. *)
Inductive event : Type :=
| Log (level : string) (message : string)     (* logger.<level>(message) *)
| LogTraceback                                (* logger.error(traceback.format_exc()) *)
| ClockRead (t : Z)                           (* time.time() *)
| UpstreamPost (o : OutboundRequest)          (* session.post(...) *)
| ThreadStart                                 (* self.server_thread.start() *)
| SendText (wxid : string) (text : string).   (* bot.send_text_message(...) *)

(** A computation over a state [S]: it ends by returning or by raising,
    leaves a state behind and has emitted some events. *)
Record outcome (S A : Type) : Type := mkOutcome {
  res : result A;
  final : S;
  emitted : list event
}.
Arguments mkOutcome {S A} _ _ _.
Arguments res {S A} _.
Arguments final {S A} _.
Arguments emitted {S A} _.

Definition M (S A : Type) : Type := S -> outcome S A.

Section Monad.
Context {S : Type}.

Definition ret {A} (a : A) : M S A := fun s => mkOutcome (inr a) s [].

Definition raise {A} (e : pyexn) : M S A := fun s => mkOutcome (inl e) s [].

Definition bind {A B} (m : M S A) (k : A -> M S B) : M S B :=
  fun s =>
    match m s with
    | mkOutcome (inl e) s' evs => mkOutcome (inl e) s' evs
    | mkOutcome (inr a) s' evs =>
        match k a s' with
        | mkOutcome r s'' evs' => mkOutcome r s'' (evs ++ evs')%list
        end
    end.

(** An expression that may raise, used as a statement. *)
Definition lift {A} (r : result A) : M S A :=
  fun s => mkOutcome r s [].

Definition emit (ev : event) : M S unit :=
  fun s => mkOutcome (inr tt) s [ev].

Definition get_state : M S S := fun s => mkOutcome (inr s) s [].

Definition put_state (s' : S) : M S unit := fun _ => mkOutcome (inr tt) s' [].

(** [try: body  except Exception as e: handler(e)] *)
Definition try_except {A} (body : M S A) (handler : pyexn -> M S A) : M S A :=
  fun s =>
    match body s with
    | mkOutcome (inl e) s' evs =>
        if is_Exception e
        then
          match handler e s' with
          | mkOutcome r s'' evs' => mkOutcome r s'' (evs ++ evs')%list
          end
        else mkOutcome (inl e) s' evs
    | mkOutcome (inr a) s' evs => mkOutcome (inr a) s' evs
    end.

End Monad.

Declare Scope py_scope.
Delimit Scope py_scope with py.
Notation "x <- m ;; k" := (bind m (fun x => k))
  (at level 61, m at next level, right associativity) : py_scope.
Notation "m ;; k" := (bind m (fun _ => k))
  (at level 61, right associativity) : py_scope.
Open Scope py_scope.

(** The same sequencing for expressions that only return or raise. *)
Definition rbind {A B} (r : result A) (k : A -> result B) : result B :=
  match r with
  | inl e => inl e
  | inr a => k a
  end.

(* ===================================================================== *)
(** ** The settings read by the handlers *)
(* ===================================================================== *)

(** The attributes [__init__] assigns from the [OpenAIAPI] table of the
    plugin's config.toml (lines 46-73), with the types of the documented
    configuration surface.  The handlers are registered by [_setup_routes]
    after all of them are assigned, so a handler reads them from a total
    record. *)
Record GatewayConfig : Type := mkConfig {
  api_key : string;
  base_url : string;
  default_model : string;
  available_models : list string;
  port : Z;
  host : string;
  command_tip : string;
  http_proxy : string;
  price : number;
  admin_ignore : bool;
  whitelist_ignore : bool;
  max_tokens : number;
  temperature : number;
  top_p : number;
  frequency_penalty : number;
  presence_penalty : number
}.

(** The class attribute [version]. *)
Definition version : string := "1.0.0".

(* ===================================================================== *)
(** ** Requests and responses *)
(* ===================================================================== *)

(** An inbound request, as the handler sees it: what [await request.json()]
    gives (the parsed body, or the exception of the parser) and the raw
    header list, whose names the ASGI server has lower-cased. *)
Record Request : Type := mkRequest {
  request_json : result jvalue;
  request_headers : list (string * string)
}.

(** [request.headers.get(name, default)]: the value of the first header
    whose stored name is [name.lower()]. *)
Fixpoint headers_lookup (lname : string) (hs : list (string * string))
  : option string :=
  match hs with
  | [] => None
  | (k, v) :: hs' => if String.eqb k lname then Some v else headers_lookup lname hs'
  end.

Definition headers_get (name default : string) (hs : list (string * string))
  : string :=
  match headers_lookup (PyStr.lower name) hs with
  | Some v => v
  | None => default
  end.

(** What the upstream answered: [response.status] and what
    [await response.json()] gives. *)
Record UpstreamResponse : Type := mkUpstream {
  status : Z;
  response_json : result jvalue
}.

(** A response of the gateway.  [content] is the JSON value whose
    [json.dumps] text is the body. *)
Record HttpResponse : Type := mkResponse {
  status_code : Z;
  media_type : string;
  content : jvalue
}.

(** [Response(content=json.dumps(v), media_type="application/json",
    status_code=code)] *)
Definition Response (v : jvalue) (code : Z) : HttpResponse :=
  mkResponse code "application/json" v.

(** [JSONResponse(status_code=code, content=v)] *)
Definition JSONResponse (code : Z) (v : jvalue) : HttpResponse :=
  mkResponse code "application/json" v.

(* ===================================================================== *)
(** ** Item access on a parsed body *)
(* ===================================================================== *)

(** [key in body].  A dict tests its keys, a list its items, a string its
    substrings; the other JSON values are not containers. *)
Definition py_contains (key : string) (body : jvalue) : result bool :=
  match body with
  | JObj d => inr (dict_contains key d)
  | JArr l => inr (existsb (jvalue_is_str key) l)
  | JStr s => inr (PyStr.contains key s)
  | _ =>
      inl (TypeError ("argument of type '" ++ type_name body ++ "' is not iterable"))
  end.

(** [body[key] = v] for a string key: only a dict accepts it. *)
Definition py_setitem (key : string) (v : jvalue) (body : jvalue) : result jvalue :=
  match body with
  | JObj d => inr (JObj (dict_set key v d))
  | JArr _ => inl (TypeError "list indices must be integers or slices, not str")
  | _ =>
      inl (TypeError
             ("'" ++ type_name body ++ "' object does not support item assignment"))
  end.

Notation "x <~ r ;; k" := (rbind r (fun x => k))
  (at level 61, r at next level, right associativity) : py_scope.

(* ===================================================================== *)
(** ** The routes registered by [_setup_routes] *)
(* ===================================================================== *)

(** State of a handler run: how many times the clock has been read. *)
Definition clock : Type := nat.

Section Routes.

Variable self : GatewayConfig.
(** [int(time.time())] at the n-th read of the clock. *)
Variable now : nat -> Z.
(** The upstream provider: the answer to [session.post], or the exception
    the call raises. *)
Variable upstream : OutboundRequest -> result UpstreamResponse.

Definition time_time : M clock Z :=
  fun n => mkOutcome (inr (now n)) (S n) [ClockRead (now n)].

(** *** GET /v1/models *)

Definition model_descriptor (model_id : string) (created : Z) : jvalue :=
  JObj [("id", JStr model_id);
        ("object", JStr "model");
        ("created", JNum (NInt created));
        ("owned_by", JStr "organization-owner")].

(** The [for model_id in self.available_models] loop; [models] is the list
    built so far. *)
Fixpoint list_models_loop (ids : list string) (models : list jvalue)
  : M clock (list jvalue) :=
  match ids with
  | [] => ret models
  | model_id :: rest =>
      created <- time_time ;;
      list_models_loop rest (models ++ [model_descriptor model_id created])%list
  end.

Definition list_models : M clock jvalue :=
  models <- list_models_loop (available_models self) [] ;;
  ret (JObj [("object", JStr "list"); ("data", JArr models)]).

(** *** POST /v1/chat/completions *)

(** Line 135: the local [api_key]. *)
Definition caller_api_key (request : Request) : string :=
  PyStr.replace "Bearer " ""
    (headers_get "Authorization" "" (request_headers request)).

(** Lines 138-147: the local [headers]. *)
Definition outbound_headers (request : Request) : pydict string :=
  let headers := [("Content-Type", "application/json")] in
  if PyStr.truthy (api_key self)
  then dict_set "Authorization" ("Bearer " ++ api_key self) headers
  else if PyStr.truthy (caller_api_key request)
  then dict_set "Authorization" ("Bearer " ++ caller_api_key request) headers
  else headers.

(** Line 150: the local [proxy]. *)
Definition outbound_proxy : option string :=
  if PyStr.truthy (http_proxy self) then Some (http_proxy self) else None.

(** [if key not in body: body[key] = v] *)
Definition set_default (key : string) (v : jvalue) (body : jvalue) : result jvalue :=
  present <~ py_contains key body ;;
  if negb present then py_setitem key v body else inr body.

(** [if "max_tokens" not in body and self.max_tokens > 0: ...] *)
Definition set_default_max_tokens (body : jvalue) : result jvalue :=
  present <~ py_contains "max_tokens" body ;;
  if negb present && number_gt0 (max_tokens self)
  then py_setitem "max_tokens" (JNum (max_tokens self)) body
  else inr body.

(** Lines 153-169. *)
Definition apply_defaults (body : jvalue) : result jvalue :=
  body <~ set_default "model" (JStr (default_model self)) body ;;
  body <~ set_default_max_tokens body ;;
  body <~ set_default "temperature" (JNum (temperature self)) body ;;
  body <~ set_default "top_p" (JNum (top_p self)) body ;;
  body <~ set_default "frequency_penalty" (JNum (frequency_penalty self)) body ;;
  set_default "presence_penalty" (JNum (presence_penalty self)) body.

(** The fields lines 153-169 look at. *)
Definition known_fields : list string :=
  ["model"; "max_tokens"; "temperature"; "top_p"; "frequency_penalty";
   "presence_penalty"].

(** The effect of lines 153-169 on a body that is a JSON object. *)
Definition merge_object (d : pydict jvalue) : pydict jvalue :=
  let d := dict_setdefault "model" (JStr (default_model self)) d in
  let d := if number_gt0 (max_tokens self)
           then dict_setdefault "max_tokens" (JNum (max_tokens self)) d
           else d in
  let d := dict_setdefault "temperature" (JNum (temperature self)) d in
  let d := dict_setdefault "top_p" (JNum (top_p self)) d in
  let d := dict_setdefault "frequency_penalty" (JNum (frequency_penalty self)) d in
  dict_setdefault "presence_penalty" (JNum (presence_penalty self)) d.

(** [session.post(url, headers=..., json=..., proxy=...)] *)
Definition session_post (o : OutboundRequest) : M clock UpstreamResponse :=
  emit (UpstreamPost o) ;;
  lift (upstream o).

(** The arguments of the call of lines 173-178, for the merged [body]. *)
Definition outbound_request (request : Request) (body : jvalue) : OutboundRequest :=
  let headers := outbound_headers request in
  let proxy := outbound_proxy in
  mkOutbound (base_url self ++ "/chat/completions") headers body proxy.

(** The statements under [try:] (lines 131-187). *)
Definition forward (request : Request) : M clock HttpResponse :=
  body <- lift (request_json request) ;;
  body <- lift (apply_defaults body) ;;
  response <- session_post (outbound_request request body) ;;
  response_json <- lift (response_json response) ;;
  ret (Response response_json (status response)).

(** The [content] of the response built under [except Exception as e:]. *)
Definition error_envelope (e : pyexn) : jvalue :=
  JObj [("error",
         JObj [("message", JStr ("处理请求失败: " ++ exn_str e));
               ("type", JStr "server_error");
               ("code", JStr "internal_server_error")])].

Definition create_chat_completion (request : Request) : M clock HttpResponse :=
  try_except
    (forward request)
    (fun e =>
       emit (Log "error" ("处理聊天完成请求失败: " ++ exn_str e)) ;;
       emit LogTraceback ;;
       ret (JSONResponse 500 (error_envelope e))).

(** *** GET / and GET /docs *)

Definition root : M clock jvalue :=
  ret (JObj [("message", JStr "OpenAI API兼容服务已启动");
             ("version", JStr version);
             ("models", JArr (map JStr (available_models self)));
             ("documentation", JStr "/docs")]).

Definition get_docs : M clock jvalue :=
  ret (JObj [("message", JStr "访问 /docs 查看API文档");
             ("swagger_ui", JStr "/docs");
             ("redoc", JStr "/redoc")]).

End Routes.

(* ===================================================================== *)
(** ** The plugin instance and its lifecycle *)
(* ===================================================================== *)

(** An instance attribute: [None] until the first assignment. *)
Definition attr (A : Type) : Type := option A.

(** [uvicorn.Server]: the flag [on_disable] sets. *)
Record Server : Type := mkServer { should_exit : bool }.

(** [threading.Thread(target=self._run_server, daemon=True)] *)
Inductive Thread : Type := DaemonThread.

(** The FastAPI application: the routes the plugin has registered,
    as (method, path). *)
Record FastAPIApp : Type := mkApp { routes : list (string * string) }.

(** The attributes of an [OpenAIAPI] object.  [settings] groups the
    attributes of lines 46-73: nothing between these assignments can raise,
    so they are assigned all or none. *)
Record OpenAIAPI : Type := mkPlugin {
  enable : attr bool;
  settings : attr GatewayConfig;
  db : attr unit;
  admins : attr (list string);
  app : attr FastAPIApp;
  server : attr (option Server);
  server_thread : attr (option Thread)
}.

(** The object [__init__] receives: no attribute of this class assigned. *)
Definition blank : OpenAIAPI := mkPlugin None None None None None None None.

Definition set_enable (v : bool) : M OpenAIAPI unit :=
  fun self =>
    mkOutcome (inr tt)
      (mkPlugin (Some v) (settings self) (db self) (admins self) (app self)
         (server self) (server_thread self)) [].

Definition set_settings (v : GatewayConfig) : M OpenAIAPI unit :=
  fun self =>
    mkOutcome (inr tt)
      (mkPlugin (enable self) (Some v) (db self) (admins self) (app self)
         (server self) (server_thread self)) [].

Definition set_db (v : unit) : M OpenAIAPI unit :=
  fun self =>
    mkOutcome (inr tt)
      (mkPlugin (enable self) (settings self) (Some v) (admins self) (app self)
         (server self) (server_thread self)) [].

Definition set_admins (v : list string) : M OpenAIAPI unit :=
  fun self =>
    mkOutcome (inr tt)
      (mkPlugin (enable self) (settings self) (db self) (Some v) (app self)
         (server self) (server_thread self)) [].

Definition set_app (v : FastAPIApp) : M OpenAIAPI unit :=
  fun self =>
    mkOutcome (inr tt)
      (mkPlugin (enable self) (settings self) (db self) (admins self) (Some v)
         (server self) (server_thread self)) [].

Definition set_server (v : option Server) : M OpenAIAPI unit :=
  fun self =>
    mkOutcome (inr tt)
      (mkPlugin (enable self) (settings self) (db self) (admins self) (app self)
         (Some v) (server_thread self)) [].

Definition set_server_thread (v : option Thread) : M OpenAIAPI unit :=
  fun self =>
    mkOutcome (inr tt)
      (mkPlugin (enable self) (settings self) (db self) (admins self) (app self)
         (server self) (Some v)) [].

(** [self.<name>]: raises [AttributeError] while the attribute is unset. *)
Definition getattr {A} (name : string) (field : OpenAIAPI -> attr A)
  : M OpenAIAPI A :=
  fun self =>
    match field self with
    | Some v => mkOutcome (inr v) self []
    | None =>
        mkOutcome
          (inl (AttributeError
                  ("'OpenAIAPI' object has no attribute '" ++ name ++ "'")))
          self []
    end.

(** The [OpenAIAPI] table of the plugin's config.toml: each key present or
    not. *)
Record PluginTable : Type := mkTable {
  t_enable : option bool;
  t_api_key : option string;
  t_base_url : option string;
  t_default_model : option string;
  t_available_models : option (list string);
  t_port : option Z;
  t_host : option string;
  t_command_tip : option string;
  t_http_proxy : option string;
  t_price : option number;
  t_admin_ignore : option bool;
  t_whitelist_ignore : option bool;
  t_max_tokens : option number;
  t_temperature : option number;
  t_top_p : option number;
  t_frequency_penalty : option number;
  t_presence_penalty : option number
}.

(** [{}] *)
Definition empty_table : PluginTable :=
  mkTable None None None None None None None None None None None None None
    None None None None.

(** The plugin's config.toml as parsed. *)
Record PluginToml : Type := mkPluginToml { t_OpenAIAPI : option PluginTable }.

(** main_config.toml as parsed: the [XYBot] table and its [admins] key. *)
Record XYBotTable : Type := mkXYBot { t_admins : option (list string) }.
Record MainToml : Type := mkMainToml { t_XYBot : option XYBotTable }.

(** [d.get(key, default)] on a parsed table. *)
Definition get_or {A} (o : option A) (default : A) : A :=
  match o with
  | Some v => v
  | None => default
  end.

(** Lines 46-73. *)
#[warnings="-inexact-float"]
Definition read_settings (plugin_config : PluginTable) : GatewayConfig :=
  mkConfig
    (get_or (t_api_key plugin_config) "")
    (get_or (t_base_url plugin_config) "https://api.openai.com/v1")
    (get_or (t_default_model plugin_config) "gpt-3.5-turbo")
    (get_or (t_available_models plugin_config) ["gpt-3.5-turbo"])
    (get_or (t_port plugin_config) 8100%Z)
    (get_or (t_host plugin_config) "0.0.0.0")
    (get_or (t_command_tip plugin_config) "")
    (get_or (t_http_proxy plugin_config) "")
    (get_or (t_price plugin_config) (NInt 0))
    (get_or (t_admin_ignore plugin_config) true)
    (get_or (t_whitelist_ignore plugin_config) true)
    (get_or (t_max_tokens plugin_config) (NInt 4096))
    (get_or (t_temperature plugin_config) (NFloat 0.7%float))
    (get_or (t_top_p plugin_config) (NFloat 1.0%float))
    (get_or (t_frequency_penalty plugin_config) (NFloat 0.0%float))
    (get_or (t_presence_penalty plugin_config) (NFloat 0.0%float)).

(** The bot handle passed to [on_enable]. *)
Record Bot : Type := mkBot {
  send_text_message : string -> string -> result unit
}.

(** [str(n)] for the port in a log line. *)
Definition str_of_Z (n : Z) : string := NilZero.string_of_int (Z.to_int n).

Section Lifecycle.

(** The host around the plugin.  The hooks of [PluginBase] (not part of
    this file of the source) return or raise and leave the attributes of
    this class alone. *)
Variable PluginBase_init : result unit.
Variable PluginBase_on_enable : result unit.
Variable PluginBase_on_disable : result unit.
(** [with open("main_config.toml", "rb") as f: tomllib.load(f)] *)
Variable load_main_config : result MainToml.
(** The same for the plugin's config.toml. *)
Variable load_plugin_config : result PluginToml.
(** [XYBotDB()] *)
Variable XYBotDB_new : result unit.
(** [FastAPI(...)] followed by [add_middleware(CORSMiddleware, ...)] *)
Variable FastAPI_new : result unit.
(** [self.server_thread.start()] *)
Variable thread_start : result unit.

(** The four decorators of [_setup_routes], in source order. *)
Definition _setup_routes : M OpenAIAPI unit :=
  a <- getattr "app" app ;;
  set_app
    (mkApp (routes a ++ [("GET", "/v1/models");
                         ("POST", "/v1/chat/completions");
                         ("GET", "/");
                         ("GET", "/docs")])%list).

Definition __init__ : M OpenAIAPI unit :=
  lift PluginBase_init ;;
  try_except
    (main_config <- lift load_main_config ;;
     config <- lift load_plugin_config ;;
     let plugin_config := get_or (t_OpenAIAPI config) empty_table in
     set_enable (get_or (t_enable plugin_config) false) ;;
     set_settings (read_settings plugin_config) ;;
     lift XYBotDB_new ;;
     set_db tt ;;
     set_admins (get_or (t_admins (get_or (t_XYBot main_config) (mkXYBot None))) []) ;;
     lift FastAPI_new ;;
     set_app (mkApp []) ;;
     set_server None ;;
     set_server_thread None ;;
     _setup_routes ;;
     emit (Log "success" "OpenAIAPI插件初始化成功"))
    (fun e =>
       emit (Log "error" ("OpenAIAPI插件初始化失败: " ++ exn_str e)) ;;
       emit LogTraceback ;;
       set_enable false).

(** [_start_server], run by the server thread, up to the point where
    [serve()] takes over. *)
Definition _start_server : M OpenAIAPI unit :=
  _ <- getattr "app" app ;;
  _ <- getattr "host" settings ;;
  _ <- getattr "port" settings ;;
  set_server (Some (mkServer false)).

(** One turn of the notification loop (lines 258-261). *)
Definition notify_admin (bot : Bot) (admin : string) : M OpenAIAPI unit :=
  try_except
    (cfg <- getattr "command_tip" settings ;;
     emit (SendText admin (command_tip cfg)) ;;
     lift (send_text_message bot admin (command_tip cfg)))
    (fun e =>
       emit (Log "error"
               ("向管理员 " ++ admin ++ " 发送提示消息失败: " ++ exn_str e))).

Fixpoint notify_admins (bot : Bot) (l : list string) : M OpenAIAPI unit :=
  match l with
  | [] => ret tt
  | admin :: rest => notify_admin bot admin ;; notify_admins bot rest
  end.

(** Lines 255-261: [if bot and self.command_tip: for admin in self.admins]. *)
Definition send_tips (bot : option Bot) : M OpenAIAPI unit :=
  match bot with
  | None => ret tt
  | Some b =>
      cfg <- getattr "command_tip" settings ;;
      if PyStr.truthy (command_tip cfg)
      then (l <- getattr "admins" admins ;; notify_admins b l)
      else ret tt
  end.

Definition on_enable (bot : option Bot) : M OpenAIAPI unit :=
  lift PluginBase_on_enable ;;
  en <- getattr "enable" enable ;;
  if negb en
  then emit (Log "warning" "OpenAIAPI插件已禁用，不启动API服务器")
  else
    try_except
      (set_server_thread (Some DaemonThread) ;;
       lift thread_start ;;
       emit ThreadStart ;;
       cfg <- getattr "host" settings ;;
       emit (Log "success"
               ("OpenAIAPI服务器已启动，监听地址: " ++ host cfg ++ ":"
                ++ str_of_Z (port cfg))) ;;
       send_tips bot)
      (fun e =>
         emit (Log "error" ("启动OpenAIAPI服务器失败: " ++ exn_str e)) ;;
         emit LogTraceback).

Definition on_disable : M OpenAIAPI unit :=
  srv <- getattr "server" server ;;
  match srv with
  | Some _ =>
      set_server (Some (mkServer true)) ;;
      emit (Log "info" "OpenAIAPI服务器正在关闭...")
  | None => ret tt
  end ;;
  lift PluginBase_on_disable.

End Lifecycle.

(** The calls the host and the server thread make on a constructed plugin. *)
Inductive hook : Type :=
| Enable (bot : option Bot)     (* await plugin.on_enable(bot) *)
| ServerThread                  (* the thread reaches [_start_server] *)
| Disable.                      (* await plugin.on_disable() *)

(** One call, in a host whose own hooks return normally and whose threads
    start. *)
Definition run_hook (h : hook) : M OpenAIAPI unit :=
  match h with
  | Enable bot => on_enable (inr tt) (inr tt) bot
  | ServerThread => _start_server
  | Disable => on_disable (inr tt)
  end.

(** The object after a sequence of calls; a call that raises leaves the
    object as it was at that point and the sequence goes on. *)
Fixpoint after_hooks (hs : list hook) (self : OpenAIAPI) : OpenAIAPI :=
  match hs with
  | [] => self
  | h :: hs' => after_hooks hs' (final (run_hook h self))
  end.

(* ===================================================================== *)
(** ** The token extraction as the specification words it *)
(* ===================================================================== *)

(** [s.removeprefix(p)]: drop [p] when [s] starts with it, else keep [s]. *)
Fixpoint removeprefix (p s : string) : string :=
  match p, s with
  | EmptyString, _ => s
  | String a p', String b s' =>
      if Ascii.eqb a b && PyStr.startswith p' s' then removeprefix p' s' else s
  | String _ _, EmptyString => s
  end.

(** The caller's token as the specification describes it: the header value
    without its leading "Bearer " when it has one, the value itself
    otherwise, the empty string when there is no header. *)
Definition spec_caller_token (request : Request) : string :=
  removeprefix "Bearer "
    (headers_get "Authorization" "" (request_headers request)).

(* ===================================================================== *)
(** ** Where the statements under [try:] can raise *)
(* ===================================================================== *)

(** [e] is raised by one of the steps of lines 131-187: parsing the body,
    merging the defaults, the POST to the upstream, or decoding its answer.
    (Building the headers and the proxy only handles strings and cannot
    raise.) *)
Definition raised_under_try
  (self : GatewayConfig) (upstream : OutboundRequest -> result UpstreamResponse)
  (request : Request) (e : pyexn) : Prop :=
  request_json request = inl e \/
  (exists body,
      request_json request = inr body /\ apply_defaults self body = inl e) \/
  (exists body body',
      request_json request = inr body /\ apply_defaults self body = inr body' /\
      upstream (outbound_request self request body') = inl e) \/
  (exists body body' r,
      request_json request = inr body /\ apply_defaults self body = inr body' /\
      upstream (outbound_request self request body') = inr r /\
      response_json r = inl e).

(** What [open("main_config.toml", "rb")] raises when the file is missing. *)
Definition FileNotFoundError : pyexn :=
  mkExn FromException "FileNotFoundError"
    "[Errno 2] No such file or directory: 'main_config.toml'".

(** A plugin config.toml that enables the gateway and sets [command-tip]. *)
Definition toml_with_tip (tip : string) : PluginToml :=
  mkPluginToml
    (Some (mkTable (Some true) None None None None None None (Some tip) None
             None None None None None None None None)).

(** A main_config.toml with two admins. *)
Definition main_toml : MainToml :=
  mkMainToml (Some (mkXYBot (Some ["wxid_admin1"; "wxid_admin2"]))).

(** A bot whose messages to [wxid_admin1] fail and whose others succeed. *)
Definition flaky_bot : Bot :=
  mkBot (fun wxid _ =>
           if String.eqb wxid "wxid_admin1"
           then inl (mkExn FromException "RuntimeError" "send failed")
           else inr tt).

(** The status code a finished run answers with, if it returned. *)
Definition status_code_of_run (o : outcome clock HttpResponse) : option Z :=
  match res o with
  | inr r => Some (status_code r)
  | inl _ => None
  end.

(* ===================================================================== *)
(** ** Concrete configurations, requests and upstreams *)
(* ===================================================================== *)

(** The settings of an empty [OpenAIAPI] table: every documented default,
    no credential. *)
Definition default_settings : GatewayConfig := read_settings empty_table.

(** The scenario of the specification: [default-model = "gpt-4"],
    [max_tokens = 2000], a configured credential. *)
Definition keyed_settings : GatewayConfig :=
  read_settings
    (mkTable (Some true) (Some "sk-config") None (Some "gpt-4")
       (Some ["gpt-4"; "gpt-3.5-turbo"]) None None None None None None None
       (Some (NInt 2000)) None None None None).

(** A request with the given parsed body and [Authorization] header. *)
Definition request_with (body : result jvalue) (authorization : option string)
  : Request :=
  mkRequest body
    (("host", "127.0.0.1:8100") ::
     match authorization with
     | Some v => [("authorization", v)]
     | None => []
     end).

(** [{"model": "gpt-3.5-turbo", "messages": []}] *)
Definition sample_body : jvalue :=
  JObj [("model", JStr "gpt-3.5-turbo"); ("messages", JArr [])].

(** What [request.json()] raises on a body that is not JSON. *)
Definition JSONDecodeError : pyexn :=
  mkExn FromException "JSONDecodeError"
    "Expecting value: line 1 column 1 (char 0)".

(** An upstream that answers 200 with a completion. *)
Definition upstream_ok (o : OutboundRequest) : result UpstreamResponse :=
  inr (mkUpstream 200 (inr (JObj [("id", JStr "chatcmpl-1")]))).

(** An upstream that answers 429 with [{"error": "rate limited"}]. *)
Definition upstream_429 (o : OutboundRequest) : result UpstreamResponse :=
  inr (mkUpstream 429 (inr (JObj [("error", JStr "rate limited")]))).

(** A clock that advances one second per read. *)
Definition ticking (n : nat) : Z := (1700000000 + Z.of_nat n)%Z.

(* ===================================================================== *)
(** ** Reading a run's effects and a body's shape *)
(* ===================================================================== *)

(** How many times a run called [session.post]. *)
Fixpoint count_posts (evs : list event) : nat :=
  match evs with
  | [] => 0
  | UpstreamPost _ :: evs' => S (count_posts evs')
  | _ :: evs' => count_posts evs'
  end.

(** The messages a run handed to [bot.send_text_message], in order, as
    (recipient, text). *)
Fixpoint sent_texts (evs : list event) : list (string * string) :=
  match evs with
  | [] => []
  | SendText wxid text :: evs' => (wxid, text) :: sent_texts evs'
  | _ :: evs' => sent_texts evs'
  end.

(** JSON [null], booleans and numbers: the values [in] cannot test. *)
Definition is_scalar (v : jvalue) : bool :=
  match v with
  | JNull | JBool _ | JNum _ => true
  | _ => false
  end.

(** [v[key]] for a JSON object, [None] for anything else. *)
Definition json_member (key : string) (v : jvalue) : option jvalue :=
  match v with
  | JObj d => dict_get key d
  | _ => None
  end.

(** The keys of a dict, in order. *)
Definition dict_keys {V : Type} (d : pydict V) : list string := map fst d.

(** [_run_server]: [asyncio.run(self._start_server())] on the server
    thread. *)
Definition _run_server : M OpenAIAPI unit := _start_server.

(** A bot every message of which is delivered. *)
Definition reliable_bot : Bot := mkBot (fun _ _ => inr tt).

(** What [Thread.start] raises when no thread can be created. *)
Definition ThreadError : pyexn :=
  mkExn FromException "RuntimeError" "can't start new thread".

(** A cancelled request: [asyncio.CancelledError] is not an [Exception]. *)
Definition CancelledError : pyexn :=
  mkExn FromBaseExceptionOnly "CancelledError" "".

(* ===================================================================== *)
(** ** Facts about strings and dicts *)
(* ===================================================================== *)

Lemma startswith_app (p s : string) : PyStr.startswith p (p ++ s) = true.
Proof.
  induction p as [|a p IH]; simpl.
  - reflexivity.
  - now rewrite Ascii.eqb_refl, IH.
Qed.

Lemma removeprefix_app (p s : string) : removeprefix p (p ++ s) = s.
Proof.
  induction p as [|a p IH]; simpl.
  - now destruct s.
  - now rewrite Ascii.eqb_refl, startswith_app.
Qed.

Lemma removeprefix_absent (p s : string) :
  PyStr.startswith p s = false -> removeprefix p s = s.
Proof.
  destruct p as [|a p]; simpl.
  - discriminate.
  - destruct s as [|b s]; [reflexivity|].
    intros H. now rewrite H.
Qed.

Lemma replace_from_skips (old new p s : string) :
  PyStr.replace_from old new (String.length p) (p ++ s)
  = PyStr.replace_from old new 0 s.
Proof.
  induction p as [|a p IH]; simpl.
  - reflexivity.
  - exact IH.
Qed.

(** A leading occurrence is replaced and the scan goes on behind it. *)
Lemma replace_leading (old new s : string) :
  old <> EmptyString ->
  PyStr.replace old new (old ++ s) = new ++ PyStr.replace old new s.
Proof.
  intros Hne. destruct old as [|a old]; [congruence|].
  unfold PyStr.replace.
  change (String a old ++ s) with (String a (old ++ s)).
  cbn [PyStr.replace_from].
  change (String a (old ++ s)) with (String a old ++ s).
  rewrite startswith_app.
  replace (String.length (String a old) - 1) with (String.length old)
    by (cbn [String.length]; lia).
  now rewrite replace_from_skips.
Qed.

(** Without an occurrence nothing changes. *)
Lemma replace_absent (old new s : string) :
  PyStr.contains old s = false -> PyStr.replace old new s = s.
Proof.
  unfold PyStr.replace.
  induction s as [|c s IH]; intros H.
  - reflexivity.
  - cbn [PyStr.contains] in H. apply orb_false_iff in H as [H1 H2].
    cbn [PyStr.replace_from]. rewrite H1. now rewrite IH.
Qed.

Lemma truthy_false_iff (s : string) : PyStr.truthy s = false <-> s = "".
Proof. destruct s; simpl; split; congruence. Qed.

Lemma truthy_true_iff (s : string) : PyStr.truthy s = true <-> s <> "".
Proof. destruct s; simpl; split; congruence. Qed.

Section DictFacts.
Context {V : Type}.
Implicit Types (d : pydict V) (k : string) (v : V).

Lemma dict_get_set_same k v d : dict_get k (dict_set k v d) = Some v.
Proof.
  induction d as [|[k' v'] d IH]; simpl.
  - now rewrite String.eqb_refl.
  - destruct (String.eqb k' k) eqn:E; simpl; rewrite E; auto.
Qed.

Lemma dict_get_set_other k k' v d :
  k <> k' -> dict_get k' (dict_set k v d) = dict_get k' d.
Proof.
  intros Hne. induction d as [|[k0 v0] d IH]; simpl.
  - apply String.eqb_neq in Hne. now rewrite Hne.
  - destruct (String.eqb k0 k) eqn:E; simpl.
    + apply String.eqb_eq in E. subst k0.
      apply String.eqb_neq in Hne. now rewrite Hne.
    + now rewrite IH.
Qed.

(** A key that was absent is appended: the order of the others is kept. *)
Lemma dict_set_absent k v d :
  dict_get k d = None -> dict_set k v d = (d ++ [(k, v)])%list.
Proof.
  induction d as [|[k' v'] d IH]; simpl; intros H.
  - reflexivity.
  - destruct (String.eqb k' k); [discriminate|]. now rewrite IH.
Qed.

End DictFacts.

(* ===================================================================== *)
(** ** How a run of the forwarding handler unfolds *)
(* ===================================================================== *)

Section ForwardRuns.

Variable self : GatewayConfig.
Variable upstream : OutboundRequest -> result UpstreamResponse.

(** The five ways through the statements under [try:]. *)
Lemma forward_run (request : Request) (c : clock) :
  forward self upstream request c =
  match request_json request with
  | inl e => mkOutcome (inl e) c []
  | inr body =>
      match apply_defaults self body with
      | inl e => mkOutcome (inl e) c []
      | inr body' =>
          let o := outbound_request self request body' in
          match upstream o with
          | inl e => mkOutcome (inl e) c [UpstreamPost o]
          | inr r =>
              match response_json r with
              | inl e => mkOutcome (inl e) c [UpstreamPost o]
              | inr j => mkOutcome (inr (Response j (status r))) c [UpstreamPost o]
              end
          end
      end
  end.
Proof.
  unfold forward, session_post, bind, lift, emit, ret; simpl.
  destruct (request_json request) as [e|body]; simpl; [reflexivity|].
  destruct (apply_defaults self body) as [e|body']; simpl; [reflexivity|].
  destruct (upstream (outbound_request self request body')) as [e|r]; simpl;
    [reflexivity|].
  destruct (response_json r) as [e|j]; reflexivity.
Qed.

(** What the handler adds to a run of the statements under [try:]. *)
Lemma create_chat_completion_run (request : Request) (c : clock) :
  create_chat_completion self upstream request c =
  let o := forward self upstream request c in
  match res o with
  | inr _ => o
  | inl e =>
      if is_Exception e
      then mkOutcome (inr (JSONResponse 500 (error_envelope e))) (final o)
             (emitted o
              ++ [Log "error" ("处理聊天完成请求失败: " ++ exn_str e); LogTraceback])%list
      else o
  end.
Proof.
  unfold create_chat_completion, try_except. cbv zeta.
  destruct (forward self upstream request c) as [[e|r] s' evs]; cbn [res final emitted];
    [|reflexivity].
  destruct (is_Exception e); reflexivity.
Qed.

(** The handler posts only the request built from the merged body. *)
Lemma posted_request (request : Request) (c : clock) (o : OutboundRequest) :
  In (UpstreamPost o) (emitted (create_chat_completion self upstream request c)) ->
  exists body body',
    request_json request = inr body /\
    apply_defaults self body = inr body' /\
    o = outbound_request self request body'.
Proof.
  rewrite create_chat_completion_run, forward_run. cbv zeta.
  destruct (request_json request) as [e|body]; simpl.
  - destruct (is_Exception e); simpl; intuition discriminate.
  - destruct (apply_defaults self body) as [e|body'] eqn:Hd; simpl.
    + destruct (is_Exception e); simpl; intuition discriminate.
    + intros H. exists body, body'. split; [reflexivity|]. split; [exact Hd|].
      destruct (upstream (outbound_request self request body')) as [e|r]; simpl in H.
      * destruct (is_Exception e); simpl in H;
          intuition (try discriminate; congruence).
      * destruct (response_json r) as [e|j]; simpl in H;
          [destruct (is_Exception e); simpl in H|];
          intuition (try discriminate; congruence).
Qed.

(** A body that parses and merges is posted, as the first effect. *)
Lemma posts_merged_body (request : Request) (c : clock) (body body' : jvalue) :
  request_json request = inr body ->
  apply_defaults self body = inr body' ->
  exists rest,
    emitted (create_chat_completion self upstream request c)
    = UpstreamPost (outbound_request self request body') :: rest.
Proof.
  intros Hj Hd.
  rewrite create_chat_completion_run, forward_run, Hj, Hd. cbv zeta.
  destruct (upstream (outbound_request self request body')) as [e|r]; simpl.
  - destruct (is_Exception e); simpl; eauto.
  - destruct (response_json r) as [e|j]; simpl; eauto.
    destruct (is_Exception e); simpl; eauto.
Qed.

(** ... and it is posted once. *)
Lemma posts_once (request : Request) (c : clock) (body body' : jvalue) :
  request_json request = inr body ->
  apply_defaults self body = inr body' ->
  count_posts (emitted (create_chat_completion self upstream request c)) = 1%nat.
Proof.
  intros Hj Hd.
  rewrite create_chat_completion_run, forward_run, Hj, Hd. cbv zeta.
  destruct (upstream (outbound_request self request body')) as [e|r]; cbn.
  - destruct (is_Exception e); reflexivity.
  - destruct (response_json r) as [e|j]; cbn; [|reflexivity].
    destruct (is_Exception e); reflexivity.
Qed.

End ForwardRuns.

(* ===================================================================== *)
(** ** The caller's token (line 135) *)
(* ===================================================================== *)

Lemma startswith_inv (p s : string) :
  PyStr.startswith p s = true -> exists t, s = p ++ t.
Proof.
  revert s. induction p as [|a p IH]; intros s H.
  - now exists s.
  - destruct s as [|b s]; [discriminate|].
    simpl in H. apply andb_true_iff in H as [Hab Hp].
    apply Ascii.eqb_eq in Hab. subst b.
    destruct (IH s Hp) as [t ->]. now exists t.
Qed.

Lemma removeprefix_empty (p s : string) :
  removeprefix p s = "" -> s = "" \/ s = p.
Proof.
  intros H. destruct (PyStr.startswith p s) eqn:E.
  - destruct (startswith_inv p s E) as [t ->].
    rewrite removeprefix_app in H. subst t. right.
    clear E. induction p as [|a p IH]; simpl; [reflexivity|now rewrite IH].
  - rewrite (removeprefix_absent p s E) in H. now left.
Qed.

(** No header: the default [""] is returned and nothing is stripped. *)
Lemma caller_api_key_no_header (body : result jvalue) (hs : list (string * string)) :
  headers_lookup "authorization" hs = None ->
  caller_api_key (mkRequest body hs) = "".
Proof.
  intros H. unfold caller_api_key, headers_get.
  change (PyStr.lower "Authorization") with "authorization".
  cbn [request_headers]. now rewrite H.
Qed.

(** On a header whose remainder holds no further "Bearer ", the code
    computes the token the specification describes. *)
Lemma caller_api_key_refines_spec (request : Request) :
  PyStr.contains "Bearer " (spec_caller_token request) = false ->
  caller_api_key request = spec_caller_token request.
Proof.
  unfold caller_api_key, spec_caller_token.
  generalize (headers_get "Authorization" "" (request_headers request)).
  intros h H.
  destruct (PyStr.startswith "Bearer " h) eqn:E.
  - destruct (startswith_inv _ _ E) as [t ->].
    rewrite removeprefix_app in *.
    rewrite replace_leading by discriminate.
    now rewrite replace_absent.
  - rewrite removeprefix_absent in * by exact E.
    now apply replace_absent.
Qed.

(** A token the specification finds empty is empty for the code too. *)
Lemma spec_token_empty_code_empty (request : Request) :
  spec_caller_token request = "" -> caller_api_key request = "".
Proof.
  intros H. rewrite caller_api_key_refines_spec; [exact H|].
  now rewrite H.
Qed.

(** C3, at the failing input: the header [Bearer sk-a Bearer sk-b].
    Line 135 removes every occurrence of "Bearer ", so the code's token is
    [sk-a sk-b]; stripping the leading prefix only, as the claim words it,
    leaves [sk-a Bearer sk-b].  With no configured credential the upstream
    receives [Bearer sk-a sk-b]. *)
Theorem C3_inner_bearer_is_removed :
  let request := request_with (inr sample_body) (Some "Bearer sk-a Bearer sk-b") in
  caller_api_key request = "sk-a sk-b" /\
  spec_caller_token request = "sk-a Bearer sk-b" /\
  caller_api_key request <> spec_caller_token request /\
  exists body,
    emitted (create_chat_completion default_settings upstream_ok request 0)
    = [UpstreamPost
         (mkOutbound "https://api.openai.com/v1/chat/completions"
            [("Content-Type", "application/json");
             ("Authorization", "Bearer sk-a sk-b")]
            body None)].
Proof.
  cbv zeta. split; [reflexivity|]. split; [reflexivity|]. split.
  - vm_compute. discriminate.
  - eexists. vm_compute. reflexivity.
Qed.

(** The scenario of the specification: [Bearer sk-test] with no configured
    credential goes out as [Bearer sk-test]; without a header the token is
    empty and nothing raises. *)
Lemma bearer_sk_test_is_forwarded :
  let request := request_with (inr sample_body) (Some "Bearer sk-test") in
  caller_api_key request = "sk-test" /\
  outbound_headers default_settings request
  = [("Content-Type", "application/json"); ("Authorization", "Bearer sk-test")] /\
  caller_api_key (request_with (inr sample_body) None) = "".
Proof. repeat split. Qed.

(* ===================================================================== *)
(** ** The outbound Authorization header (lines 138-147) *)
(* ===================================================================== *)

(** The three cases of the [if / elif] of lines 143-147. *)
Lemma outbound_headers_cases (self : GatewayConfig) (request : Request) :
  outbound_headers self request =
  if PyStr.truthy (api_key self)
  then [("Content-Type", "application/json");
        ("Authorization", "Bearer " ++ api_key self)]
  else if PyStr.truthy (caller_api_key request)
  then [("Content-Type", "application/json");
        ("Authorization", "Bearer " ++ caller_api_key request)]
  else [("Content-Type", "application/json")].
Proof.
  unfold outbound_headers.
  destruct (PyStr.truthy (api_key self)); [reflexivity|].
  destruct (PyStr.truthy (caller_api_key request)); reflexivity.
Qed.

(** C1. Whenever the chat-completions handler posts to the upstream, the
    headers of that request follow a fixed precedence: a non-empty
    configured credential gives [Authorization: Bearer <credential>]
    whatever the caller sent; with an empty credential a non-empty caller
    token gives [Authorization: Bearer <token>]; with both empty the
    request has no Authorization header, only Content-Type. *)
Theorem C1_authorization_precedence
  (self : GatewayConfig) (upstream : OutboundRequest -> result UpstreamResponse)
  (request : Request) (c : clock) (o : OutboundRequest) :
  In (UpstreamPost o) (emitted (create_chat_completion self upstream request c)) ->
  (api_key self <> "" ->
   out_headers o = [("Content-Type", "application/json");
                    ("Authorization", "Bearer " ++ api_key self)]) /\
  (api_key self = "" -> caller_api_key request <> "" ->
   out_headers o = [("Content-Type", "application/json");
                    ("Authorization", "Bearer " ++ caller_api_key request)]) /\
  (api_key self = "" -> caller_api_key request = "" ->
   out_headers o = [("Content-Type", "application/json")] /\
   dict_get "Authorization" (out_headers o) = None).
Proof.
  intros Hposted.
  destruct (posted_request self upstream request c o Hposted)
    as (body & body' & _ & _ & ->).
  cbn [outbound_request out_headers].
  rewrite outbound_headers_cases.
  split; [|split].
  - intros Hk. apply truthy_true_iff in Hk. now rewrite Hk.
  - intros Hk Ht. apply truthy_false_iff in Hk. apply truthy_true_iff in Ht.
    now rewrite Hk, Ht.
  - intros Hk Ht. apply truthy_false_iff in Hk. apply truthy_false_iff in Ht.
    rewrite Hk, Ht. split; reflexivity.
Qed.

(** C1 at a configured credential [sk-config] and a caller sending
    [Bearer sk-caller]: the upstream sees the configured one. *)
Lemma C1_authorization_precedence_witness :
  out_headers
    (outbound_request keyed_settings
       (request_with (inr sample_body) (Some "Bearer sk-caller"))
       (JObj [("model", JStr "gpt-3.5-turbo"); ("messages", JArr []);
              ("max_tokens", JNum (NInt 2000));
              ("temperature", JNum (temperature keyed_settings));
              ("top_p", JNum (top_p keyed_settings));
              ("frequency_penalty", JNum (frequency_penalty keyed_settings));
              ("presence_penalty", JNum (presence_penalty keyed_settings))]))
  = [("Content-Type", "application/json"); ("Authorization", "Bearer sk-config")].
Proof.
  refine (proj1 (C1_authorization_precedence keyed_settings upstream_ok
                   (request_with (inr sample_body) (Some "Bearer sk-caller"))
                   0%nat _ _) _).
  - vm_compute. left. reflexivity.
  - discriminate.
Defined.

(** C10. With no configured credential, a request whose Authorization
    value strips to the empty string (the header is exactly "Bearer ", or
    is empty) is forwarded like a request without the header: the outbound
    request has no Authorization header, and its headers are those built
    for the same request with no headers at all. *)
Theorem C10_empty_token_sends_no_authorization
  (self : GatewayConfig) (upstream : OutboundRequest -> result UpstreamResponse)
  (request : Request) (c : clock) (o : OutboundRequest) :
  api_key self = "" ->
  caller_api_key request = "" \/ spec_caller_token request = "" ->
  In (UpstreamPost o) (emitted (create_chat_completion self upstream request c)) ->
  dict_get "Authorization" (out_headers o) = None /\
  out_headers o
  = outbound_headers self (mkRequest (request_json request) []).
Proof.
  intros Hk Htok Hposted.
  assert (Ht : caller_api_key request = "").
  { destruct Htok as [Ht|Ht]; [exact Ht|now apply spec_token_empty_code_empty]. }
  destruct (posted_request self upstream request c o Hposted)
    as (body & body' & _ & _ & ->).
  cbn [outbound_request out_headers].
  rewrite !outbound_headers_cases, Hk, Ht.
  split; reflexivity.
Qed.

(** C10 at the header "Bearer " itself. *)
Lemma C10_empty_token_sends_no_authorization_witness :
  let request := request_with (inr (JObj [])) (Some "Bearer ") in
  let o := outbound_request default_settings request
             (JObj [("model", JStr "gpt-3.5-turbo");
                    ("max_tokens", JNum (NInt 4096));
                    ("temperature", JNum (temperature default_settings));
                    ("top_p", JNum (top_p default_settings));
                    ("frequency_penalty", JNum (frequency_penalty default_settings));
                    ("presence_penalty", JNum (presence_penalty default_settings))]) in
  caller_api_key request = "" /\
  dict_get "Authorization" (out_headers o) = None /\
  out_headers o = [("Content-Type", "application/json")].
Proof.
  cbv zeta. split; [reflexivity|].
  refine (C10_empty_token_sends_no_authorization default_settings upstream_ok
            (request_with (inr (JObj [])) (Some "Bearer ")) 0%nat _ _ _ _).
  - reflexivity.
  - left. reflexivity.
  - vm_compute. left. reflexivity.
Defined.

(* ===================================================================== *)
(** ** Default parameters (lines 153-169) *)
(* ===================================================================== *)

Section SetDefaultFacts.
Context {V : Type}.
Implicit Types (d : pydict V) (k : string) (v : V).

Lemma dict_get_some_neq k k' v d :
  dict_get k d = Some v -> dict_get k' d = None -> (k =? k') = false.
Proof.
  intros H1 H2. apply String.eqb_neq. intros ->. congruence.
Qed.

(** Lookup after [if k not in d: d[k] = v]: a key that was there keeps its
    value, [k] gets [v] when it was absent, nothing else appears. *)
Lemma dict_get_setdefault k v d k' :
  dict_get k' (dict_setdefault k v d) =
  match dict_get k' d with
  | Some x => Some x
  | None => if String.eqb k k' then Some v else None
  end.
Proof.
  unfold dict_setdefault, dict_contains.
  destruct (dict_get k d) as [x|] eqn:Hk.
  - destruct (dict_get k' d) eqn:Hk'; [reflexivity|].
    now rewrite (dict_get_some_neq k k' x d).
  - destruct (String.eqb_spec k k') as [<-|Hne].
    + now rewrite dict_get_set_same, Hk.
    + rewrite dict_get_set_other by exact Hne.
      now destruct (dict_get k' d).
Qed.

Lemma setdefault_keeps k v d k' x :
  dict_get k' d = Some x -> dict_get k' (dict_setdefault k v d) = Some x.
Proof. intros H. now rewrite dict_get_setdefault, H. Qed.

(** The dict only grows at its end. *)
Lemma setdefault_extends k v d :
  exists added, dict_setdefault k v d = (d ++ added)%list.
Proof.
  unfold dict_setdefault, dict_contains.
  destruct (dict_get k d) eqn:Hk.
  - exists []. now rewrite app_nil_r.
  - exists [(k, v)]. now apply dict_set_absent.
Qed.

End SetDefaultFacts.

Section MergeFacts.

Variable self : GatewayConfig.

Lemma set_default_object (key : string) (v : jvalue) (d : pydict jvalue) :
  set_default key v (JObj d) = inr (JObj (dict_setdefault key v d)).
Proof.
  unfold set_default, dict_setdefault. simpl.
  now destruct (dict_contains key d).
Qed.

Lemma set_default_max_tokens_object (d : pydict jvalue) :
  set_default_max_tokens self (JObj d)
  = inr (JObj (if number_gt0 (max_tokens self)
               then dict_setdefault "max_tokens" (JNum (max_tokens self)) d
               else d)).
Proof.
  unfold set_default_max_tokens, dict_setdefault. simpl.
  destruct (dict_contains "max_tokens" d), (number_gt0 (max_tokens self));
    reflexivity.
Qed.

(** On a JSON object the merge never raises. *)
Lemma apply_defaults_object (d : pydict jvalue) :
  apply_defaults self (JObj d) = inr (JObj (merge_object self d)).
Proof.
  unfold apply_defaults, merge_object.
  rewrite set_default_object. cbn [rbind].
  rewrite set_default_max_tokens_object. cbn [rbind].
  repeat (rewrite set_default_object; cbn [rbind]).
  reflexivity.
Qed.

Lemma merge_object_keeps (d : pydict jvalue) (k : string) (v : jvalue) :
  dict_get k d = Some v -> dict_get k (merge_object self d) = Some v.
Proof.
  intros H. unfold merge_object.
  repeat apply setdefault_keeps.
  destruct (number_gt0 (max_tokens self)); repeat apply setdefault_keeps; exact H.
Qed.

Lemma merge_object_extends (d : pydict jvalue) :
  exists added, merge_object self d = (d ++ added)%list.
Proof.
  unfold merge_object.
  destruct (setdefault_extends "model" (JStr (default_model self)) d) as [a1 ->].
  assert (exists a2,
             (if number_gt0 (max_tokens self)
              then dict_setdefault "max_tokens" (JNum (max_tokens self)) (d ++ a1)%list
              else (d ++ a1)%list) = (d ++ a2)%list) as [a2 ->].
  { destruct (number_gt0 (max_tokens self)).
    - destruct (setdefault_extends "max_tokens" (JNum (max_tokens self)) (d ++ a1)%list)
        as [a ->].
      exists (a1 ++ a)%list. now rewrite app_assoc.
    - now exists a1. }
  destruct (setdefault_extends "temperature" (JNum (temperature self)) (d ++ a2)%list)
    as [a3 ->].
  rewrite <- app_assoc.
  destruct (setdefault_extends "top_p" (JNum (top_p self)) (d ++ a2 ++ a3)%list)
    as [a4 ->].
  rewrite <- app_assoc.
  destruct (setdefault_extends "frequency_penalty" (JNum (frequency_penalty self))
              (d ++ (a2 ++ a3) ++ a4)%list) as [a5 ->].
  rewrite <- app_assoc.
  destruct (setdefault_extends "presence_penalty" (JNum (presence_penalty self))
              (d ++ ((a2 ++ a3) ++ a4) ++ a5)%list) as [a6 ->].
  rewrite <- app_assoc. eauto.
Qed.

(** Lookup in the merged body, for any key. *)
Lemma dict_get_merge_object (d : pydict jvalue) (k : string) :
  dict_get k (merge_object self d) =
  match dict_get k d with
  | Some x => Some x
  | None =>
      if String.eqb "model" k then Some (JStr (default_model self))
      else if String.eqb "max_tokens" k
      then (if number_gt0 (max_tokens self) then Some (JNum (max_tokens self)) else None)
      else if String.eqb "temperature" k then Some (JNum (temperature self))
      else if String.eqb "top_p" k then Some (JNum (top_p self))
      else if String.eqb "frequency_penalty" k then Some (JNum (frequency_penalty self))
      else if String.eqb "presence_penalty" k then Some (JNum (presence_penalty self))
      else None
  end.
Proof.
  unfold merge_object.
  rewrite !dict_get_setdefault.
  destruct (number_gt0 (max_tokens self)).
  - rewrite !dict_get_setdefault.
    destruct (dict_get k d); [reflexivity|].
    destruct ("model" =? k) eqn:E1; [reflexivity|].
    destruct ("max_tokens" =? k) eqn:E2; [reflexivity|].
    destruct ("temperature" =? k) eqn:E3; [reflexivity|].
    destruct ("top_p" =? k) eqn:E4; [reflexivity|].
    destruct ("frequency_penalty" =? k) eqn:E5; reflexivity.
  - rewrite !dict_get_setdefault.
    destruct (dict_get k d); [reflexivity|].
    destruct ("model" =? k) eqn:E1; [reflexivity|].
    destruct ("max_tokens" =? k) eqn:E2.
    + apply String.eqb_eq in E2. subst k. reflexivity.
    + destruct ("temperature" =? k) eqn:E3; [reflexivity|].
      destruct ("top_p" =? k) eqn:E4; [reflexivity|].
      destruct ("frequency_penalty" =? k) eqn:E5; reflexivity.
Qed.

End MergeFacts.

(** C2. For a request body that is a JSON object, the merge never raises
    and the request posted to the upstream carries, as its JSON body, an
    object that keeps every field the caller sent with its value (the six
    known fields included); [model], [temperature], [top_p],
    [frequency_penalty] and [presence_penalty] get the configured default
    when absent; [max_tokens] is added only when it is absent and the
    configured default is above zero; no other field appears or changes, and
    the caller's fields keep their order, the added ones following them. *)
Theorem C2_defaults_fill_only_absent_fields
  (self : GatewayConfig) (d : pydict jvalue) :
  exists d',
    apply_defaults self (JObj d) = inr (JObj d') /\
    (forall k v, dict_get k d = Some v -> dict_get k d' = Some v) /\
    (dict_get "model" d = None ->
     dict_get "model" d' = Some (JStr (default_model self))) /\
    (dict_get "temperature" d = None ->
     dict_get "temperature" d' = Some (JNum (temperature self))) /\
    (dict_get "top_p" d = None ->
     dict_get "top_p" d' = Some (JNum (top_p self))) /\
    (dict_get "frequency_penalty" d = None ->
     dict_get "frequency_penalty" d' = Some (JNum (frequency_penalty self))) /\
    (dict_get "presence_penalty" d = None ->
     dict_get "presence_penalty" d' = Some (JNum (presence_penalty self))) /\
    (dict_get "max_tokens" d = None ->
     dict_get "max_tokens" d'
     = if number_gt0 (max_tokens self) then Some (JNum (max_tokens self)) else None) /\
    (forall z,
        max_tokens self = NInt z ->
        dict_get "max_tokens" d = None ->
        ((0 < z)%Z -> dict_get "max_tokens" d' = Some (JNum (NInt z))) /\
        ((z <= 0)%Z -> dict_get "max_tokens" d' = None)) /\
    (forall f,
        max_tokens self = NFloat f ->
        dict_get "max_tokens" d = None ->
        (PrimFloat.ltb 0%float f = true ->
         dict_get "max_tokens" d' = Some (JNum (NFloat f))) /\
        (PrimFloat.ltb 0%float f = false -> dict_get "max_tokens" d' = None)) /\
    (forall k, ~ In k known_fields -> dict_get k d' = dict_get k d) /\
    (exists added, d' = (d ++ added)%list) /\
    (forall upstream request c,
        request_json request = inr (JObj d) ->
        let run := create_chat_completion self upstream request c in
        (exists o rest,
            emitted run = UpstreamPost o :: rest /\
            o = outbound_request self request (JObj d') /\
            out_json o = JObj d') /\
        count_posts (emitted run) = 1%nat /\
        (forall o, In (UpstreamPost o) (emitted run) -> out_json o = JObj d')).
Proof.
  exists (merge_object self d).
  split; [apply apply_defaults_object|].
  split; [intros k v; apply merge_object_keeps|].
  do 6 (split; [intros H; rewrite dict_get_merge_object, H; reflexivity|]).
  split.
  { intros z Hz H. rewrite dict_get_merge_object, H, Hz. cbn.
    destruct (Z.ltb_spec 0 z); split; intros; (reflexivity || lia). }
  split.
  { intros f Hf H. rewrite dict_get_merge_object, H, Hf. cbn.
    destruct (PrimFloat.ltb 0 f); split; intros; (reflexivity || discriminate). }
  split.
  - intros k Hk. rewrite dict_get_merge_object.
    destruct (dict_get k d); [reflexivity|].
    unfold known_fields in Hk. cbn [In] in Hk.
    repeat match goal with
           | |- context [String.eqb ?a k] =>
               destruct (String.eqb_spec a k); [exfalso; tauto|]
           end.
    reflexivity.
  - split; [apply merge_object_extends|].
    intros upstream request c Hj. cbv zeta.
    assert (Hall : forall o,
               In (UpstreamPost o)
                 (emitted (create_chat_completion self upstream request c)) ->
               out_json o = JObj (merge_object self d)).
    { intros o Hin.
      destruct (posted_request self upstream request c o Hin)
        as (b & b' & Hb & Hb' & ->).
      rewrite Hj in Hb. injection Hb as <-.
      rewrite apply_defaults_object in Hb'. injection Hb' as <-.
      reflexivity. }
    split; [|split; [|exact Hall]].
    + destruct (posts_merged_body self upstream request c (JObj d)
                  (JObj (merge_object self d)) Hj (apply_defaults_object self d))
        as [rest Hev].
      exists (outbound_request self request (JObj (merge_object self d))), rest.
      split; [exact Hev|]. split; [reflexivity|].
      apply Hall. rewrite Hev. now left.
    + apply posts_once with (body := JObj d) (body' := JObj (merge_object self d));
        [exact Hj|apply apply_defaults_object].
Qed.

(** C2 on the scenario of the specification: [default-model = "gpt-4"] and
    [max_tokens = 2000] configured, the caller posts a body with
    [model = "gpt-3.5-turbo"] and no [max_tokens].  The request that leaves
    for the upstream has the caller's model and the configured
    [max_tokens]. *)
Lemma C2_defaults_fill_only_absent_fields_witness :
  exists o rest,
    emitted (create_chat_completion keyed_settings upstream_ok
               (request_with (inr sample_body) None) 0%nat)
    = UpstreamPost o :: rest /\
    json_member "model" (out_json o) = Some (JStr "gpt-3.5-turbo") /\
    json_member "max_tokens" (out_json o) = Some (JNum (NInt 2000)) /\
    json_member "messages" (out_json o) = Some (JArr []).
Proof.
  destruct (C2_defaults_fill_only_absent_fields keyed_settings
              [("model", JStr "gpt-3.5-turbo"); ("messages", JArr [])])
    as (d' & _ & Hkeep & _ & _ & _ & _ & _ & _ & Hmax & _ & _ & _ & Hpost).
  destruct (Hpost upstream_ok (request_with (inr sample_body) None) 0%nat eq_refl)
    as ((o & rest & Hev & _ & Hjson) & _ & _).
  exists o, rest. split; [exact Hev|].
  rewrite Hjson. cbn [json_member].
  split; [|split].
  - apply Hkeep. reflexivity.
  - apply (Hmax 2000%Z eq_refl eq_refl). reflexivity.
  - apply Hkeep. reflexivity.
Defined.

(* ===================================================================== *)
(** ** Errors and relay (lines 172-202) *)
(* ===================================================================== *)

(** The steps listed in [raised_under_try] are exactly the ways the
    statements under [try:] raise. *)
Lemma forward_raises_iff
  (self : GatewayConfig) (upstream : OutboundRequest -> result UpstreamResponse)
  (request : Request) (c : clock) (e : pyexn) :
  res (forward self upstream request c) = inl e
  <-> raised_under_try self upstream request e.
Proof.
  rewrite forward_run. unfold raised_under_try. cbv zeta.
  destruct (request_json request) as [e0|body] eqn:Hj; simpl.
  - split; [intros [= ->]; now left|].
    intros [H|[(b & H & _)|[(b & b' & H & _)|(b & b' & r & H & _)]]];
      congruence.
  - destruct (apply_defaults self body) as [e0|body'] eqn:Hd; simpl.
    + split; [intros [= ->]; right; left; eauto|].
      intros [H|[(b & H & H')|[(b & b' & H & H' & _)|(b & b' & r & H & H' & _)]]];
        congruence.
    + destruct (upstream (outbound_request self request body')) as [e0|r] eqn:Hu;
        simpl.
      * split; [intros [= ->]; right; right; left; eauto|].
        intros [H|[(b & H & H')|[(b & b' & H & H' & H'')|(b & b' & r & H & H' & H'' & _)]]];
          congruence.
      * destruct (response_json r) as [e0|j] eqn:Hr; simpl.
        -- split; [intros [= ->]; right; right; right; eauto 8|].
           intros [H|[(b & H & H')|[(b & b' & H & H' & H'')|(b & b' & r' & H & H' & H'' & H3)]]];
             congruence.
        -- split; [discriminate|].
           intros [H|[(b & H & H')|[(b & b' & H & H' & H'')|(b & b' & r' & H & H' & H'' & H3)]]];
             congruence.
Qed.

(** C4. Whenever a step under [try:] (parsing the body, merging, the
    upstream call, decoding the upstream's answer) raises an exception, the
    handler returns status 500 with the body
    [{"error": {"message": <string>, "type": "server_error",
    "code": "internal_server_error"}}]; no exception leaves the handler;
    in particular a body that does not parse as JSON gives this envelope.
    An exception is an instance of [Exception], the class the handler's
    [except] clause names. *)
Theorem C4_exceptions_become_500_envelope
  (self : GatewayConfig) (upstream : OutboundRequest -> result UpstreamResponse)
  (request : Request) (c : clock) :
  (forall e,
      raised_under_try self upstream request e ->
      is_Exception e = true ->
      res (create_chat_completion self upstream request c)
      = inr (mkResponse 500 "application/json"
               (JObj [("error",
                       JObj [("message", JStr ("处理请求失败: " ++ exn_str e));
                             ("type", JStr "server_error");
                             ("code", JStr "internal_server_error")])]))) /\
  (forall e,
      res (create_chat_completion self upstream request c) = inl e ->
      is_Exception e = false) /\
  (forall e,
      request_json request = inl e ->
      is_Exception e = true ->
      exists message,
        res (create_chat_completion self upstream request c)
        = inr (mkResponse 500 "application/json"
                 (JObj [("error",
                         JObj [("message", JStr message);
                               ("type", JStr "server_error");
                               ("code", JStr "internal_server_error")])])) /\
        emitted (create_chat_completion self upstream request c)
        = [Log "error" ("处理聊天完成请求失败: " ++ exn_str e); LogTraceback]).
Proof.
  split; [|split].
  - intros e Hraised He.
    apply (forward_raises_iff self upstream request c) in Hraised.
    rewrite create_chat_completion_run. cbv zeta.
    rewrite Hraised, He. reflexivity.
  - intros e. rewrite create_chat_completion_run. cbv zeta.
    destruct (res (forward self upstream request c)) as [e0|r] eqn:Hf.
    + destruct (is_Exception e0) eqn:He0; cbn [res].
      * discriminate.
      * rewrite Hf. intros [= <-]. exact He0.
    + rewrite Hf. discriminate.
  - intros e Hj He. eexists.
    rewrite create_chat_completion_run, forward_run, Hj. cbv zeta.
    cbn [res]. rewrite He. cbn [res emitted final]. split; reflexivity.
Qed.

(** C4 on a body that is not JSON. *)
Lemma C4_exceptions_become_500_envelope_witness :
  res (create_chat_completion default_settings upstream_ok
         (request_with (inl JSONDecodeError) (Some "Bearer sk-test")) 0%nat)
  = inr (mkResponse 500 "application/json"
           (JObj [("error",
                   JObj [("message",
                          JStr ("处理请求失败: "
                                ++ "Expecting value: line 1 column 1 (char 0)"));
                         ("type", JStr "server_error");
                         ("code", JStr "internal_server_error")])])).
Proof.
  refine (proj1 (C4_exceptions_become_500_envelope default_settings upstream_ok
                   (request_with (inl JSONDecodeError) (Some "Bearer sk-test"))
                   0%nat) JSONDecodeError _ _).
  - left. reflexivity.
  - reflexivity.
Defined.

(** The other steps, each on a concrete run: a body that is a JSON number
    fails in the merge; an upstream that cannot be reached fails in the
    POST; an upstream answering with something else than JSON fails in the
    decoding.  Each ends in the 500 envelope. *)
Lemma every_step_is_covered :
  status_code_of_run (create_chat_completion default_settings upstream_ok
                        (request_with (inr (JNum (NInt 5))) None) 0%nat) = Some 500%Z /\
  status_code_of_run (create_chat_completion default_settings
                        (fun _ => inl (mkExn FromException "ClientConnectorError"
                                         "Cannot connect to host"))
                        (request_with (inr sample_body) None) 0%nat) = Some 500%Z /\
  status_code_of_run (create_chat_completion default_settings
                        (fun _ => inr (mkUpstream 502
                                         (inl (mkExn FromException "ContentTypeError"
                                                 "unexpected mimetype: text/html"))))
                        (request_with (inr sample_body) None) 0%nat) = Some 500%Z.
Proof. repeat split. Qed.

(** A raised object outside [Exception] is not caught (a cancelled
    request, for instance). *)
Lemma base_exception_passes_through
  (self : GatewayConfig) (upstream : OutboundRequest -> result UpstreamResponse)
  (request : Request) (c : clock) (e : pyexn) :
  raised_under_try self upstream request e ->
  is_Exception e = false ->
  res (create_chat_completion self upstream request c) = inl e.
Proof.
  intros Hraised He.
  apply (forward_raises_iff self upstream request c) in Hraised.
  rewrite create_chat_completion_run. cbv zeta.
  now rewrite Hraised, He.
Qed.

(** C5. When the upstream answers with status [s] and a JSON body [j], the
    handler returns status [s] and the body [j] (as [json.dumps] writes
    it), whatever [s] is: a non-2xx status is passed on, not turned into
    500. *)
Theorem C5_upstream_reply_is_relayed
  (self : GatewayConfig) (upstream : OutboundRequest -> result UpstreamResponse)
  (request : Request) (c : clock) (body body' : jvalue) (s : Z) (j : jvalue) :
  request_json request = inr body ->
  apply_defaults self body = inr body' ->
  upstream (outbound_request self request body') = inr (mkUpstream s (inr j)) ->
  res (create_chat_completion self upstream request c)
  = inr (mkResponse s "application/json" j).
Proof.
  intros Hj Hd Hu.
  rewrite create_chat_completion_run, forward_run, Hj, Hd. cbv zeta.
  rewrite Hu. reflexivity.
Qed.

(** C5 on the scenario of the specification: the upstream answers 429 with
    [{"error": "rate limited"}]. *)
Lemma C5_upstream_reply_is_relayed_witness :
  res (create_chat_completion default_settings upstream_429
         (request_with (inr (JObj [])) (Some "Bearer sk-test")) 0%nat)
  = inr (mkResponse 429 "application/json" (JObj [("error", JStr "rate limited")])).
Proof.
  refine (C5_upstream_reply_is_relayed default_settings upstream_429
            (request_with (inr (JObj [])) (Some "Bearer sk-test")) 0%nat
            (JObj []) (JObj (merge_object default_settings [])) 429%Z
            (JObj [("error", JStr "rate limited")]) _ _ _).
  - reflexivity.
  - reflexivity.
  - reflexivity.
Defined.

(* ===================================================================== *)
(** ** GET /v1/models (lines 110-125) *)
(* ===================================================================== *)

Section ListModels.

Variable now : nat -> Z.

(** The loop appends one descriptor per identifier, reading the clock once
    for each. *)
Lemma list_models_loop_run (ids : list string) :
  forall (models : list jvalue) (c : clock),
    list_models_loop now ids models c =
    mkOutcome
      (inr (models
            ++ map (fun p => model_descriptor (snd p) (now (fst p)))
                 (combine (seq c (length ids)) ids))%list)
      (c + length ids)%nat
      (map (fun n => ClockRead (now n)) (seq c (length ids))).
Proof.
  induction ids as [|model_id rest IH]; intros models c.
  - cbn. now rewrite app_nil_r, Nat.add_0_r.
  - cbn [list_models_loop]. unfold bind, time_time. cbn [res final emitted].
    rewrite IH. cbn [res final emitted length seq combine map fst snd].
    rewrite <- app_assoc. cbn [app].
    now rewrite Nat.add_succ_r.
Qed.

Lemma nth_error_numbered {A B} (f : nat * A -> B) (l : list A) :
  forall (c i : nat) (a : A),
    nth_error l i = Some a ->
    nth_error (map f (combine (seq c (length l)) l)) i = Some (f ((c + i)%nat, a)).
Proof.
  induction l as [|x l IH]; intros c i a H.
  - destruct i; discriminate.
  - destruct i as [|i]; cbn in *.
    + injection H as ->. now rewrite Nat.add_0_r.
    + rewrite (IH (S c) i a H). now rewrite Nat.add_succ_r.
Qed.

Lemma length_numbered {A B} (f : nat * A -> B) (l : list A) (c : nat) :
  length (map f (combine (seq c (length l)) l)) = length l.
Proof.
  rewrite length_map, length_combine, length_seq. apply Nat.min_id.
Qed.

End ListModels.

(** C6. GET /v1/models answers [{"object": "list", "data": [...]}] where
    [data] has one descriptor per configured model, in the configured
    order; the i-th descriptor has the i-th identifier as [id], [object]
    equal to "model", [created] equal to the clock reading taken while the
    descriptor is built, and [owned_by] equal to "organization-owner".
    The handler only reads the clock: it posts nothing to the upstream. *)
Theorem C6_models_listing (self : GatewayConfig) (now : nat -> Z) (c : clock) :
  exists data,
    res (list_models self now c)
    = inr (JObj [("object", JStr "list"); ("data", JArr data)]) /\
    length data = length (available_models self) /\
    (forall i model_id,
        nth_error (available_models self) i = Some model_id ->
        nth_error data i
        = Some (JObj [("id", JStr model_id);
                      ("object", JStr "model");
                      ("created", JNum (NInt (now (c + i)%nat)));
                      ("owned_by", JStr "organization-owner")])) /\
    emitted (list_models self now c)
    = map (fun n => ClockRead (now n)) (seq c (length (available_models self))) /\
    (forall o, ~ In (UpstreamPost o) (emitted (list_models self now c))).
Proof.
  set (ids := available_models self).
  exists (map (fun p => model_descriptor (snd p) (now (fst p)))
            (combine (seq c (length ids)) ids)).
  assert (Hrun : list_models self now c =
                 mkOutcome
                   (inr (JObj [("object", JStr "list");
                               ("data",
                                JArr (map (fun p => model_descriptor (snd p) (now (fst p)))
                                        (combine (seq c (length ids)) ids)))]))
                   (c + length ids)%nat
                   (map (fun n => ClockRead (now n)) (seq c (length ids)))).
  { unfold list_models, bind, ret. fold ids. rewrite list_models_loop_run.
    cbn [res final emitted app]. now rewrite app_nil_r. }
  rewrite Hrun. cbn [res emitted].
  split; [reflexivity|]. split; [apply length_numbered|]. split; [|split].
  - intros i model_id H.
    now rewrite (nth_error_numbered _ ids c i model_id H).
  - reflexivity.
  - intros o Hin. apply in_map_iff in Hin as (n & Heq & _). discriminate.
Qed.

(** C6 on two configured models and a clock that ticks between the two
    reads. *)
Lemma C6_models_listing_witness :
  exists data,
    res (list_models keyed_settings ticking 0%nat)
    = inr (JObj [("object", JStr "list"); ("data", JArr data)]) /\
    nth_error data 0
    = Some (JObj [("id", JStr "gpt-4"); ("object", JStr "model");
                  ("created", JNum (NInt 1700000000));
                  ("owned_by", JStr "organization-owner")]) /\
    nth_error data 1
    = Some (JObj [("id", JStr "gpt-3.5-turbo"); ("object", JStr "model");
                  ("created", JNum (NInt 1700000001));
                  ("owned_by", JStr "organization-owner")]) /\
    length data = 2%nat.
Proof.
  destruct (C6_models_listing keyed_settings ticking 0%nat)
    as (data & Hres & Hlen & Hnth & _).
  exists data. split; [exact Hres|]. split; [|split].
  - apply (Hnth 0%nat "gpt-4"). reflexivity.
  - apply (Hnth 1%nat "gpt-3.5-turbo"). reflexivity.
  - exact Hlen.
Defined.

(* ===================================================================== *)
(** ** Construction ([__init__], lines 30-105) *)
(* ===================================================================== *)

(** What [__init__] leaves behind when a configuration file cannot be read
    or parsed: the [except] clause has logged the failure and assigned
    [enable = False]; no other attribute exists. *)
Lemma init_when_config_fails
  (load_main_config : result MainToml) (load_plugin_config : result PluginToml)
  (XYBotDB_new FastAPI_new : result unit) (e : pyexn) :
  is_Exception e = true ->
  load_main_config = inl e \/
  (exists m, load_main_config = inr m /\ load_plugin_config = inl e) ->
  __init__ (inr tt) load_main_config load_plugin_config XYBotDB_new FastAPI_new blank
  = mkOutcome (inr tt)
      (mkPlugin (Some false) None None None None None None)
      [Log "error" ("OpenAIAPI插件初始化失败: " ++ exn_str e); LogTraceback].
Proof.
  intros He Hfail.
  destruct e as [[|] cls msg]; [clear He|discriminate He].
  destruct Hfail as [->|(m & -> & ->)]; reflexivity.
Qed.

(** [on_enable] on a plugin whose [enable] is [False] only logs a warning. *)
Lemma on_enable_when_disabled
  (PluginBase_on_enable thread_start : result unit) (bot : option Bot)
  (self : OpenAIAPI) :
  enable self = Some false ->
  on_enable PluginBase_on_enable thread_start bot self
  = match PluginBase_on_enable with
    | inl e => mkOutcome (inl e) self []
    | inr _ =>
        mkOutcome (inr tt) self [Log "warning" "OpenAIAPI插件已禁用，不启动API服务器"]
    end.
Proof.
  intros H. unfold on_enable, bind, lift, getattr.
  destruct PluginBase_on_enable as [e|[]]; [reflexivity|].
  rewrite H. reflexivity.
Qed.

(** C7. If reading or parsing main_config.toml or the plugin's config.toml
    raises during construction, [__init__] returns normally and leaves
    [enable = False]; no application and no route exist, and a later
    [on_enable] starts no server thread and sends nothing, so the host goes
    on without the gateway. *)
Theorem C7_config_failure_disables
  (load_main_config : result MainToml) (load_plugin_config : result PluginToml)
  (XYBotDB_new FastAPI_new : result unit) (e : pyexn) :
  is_Exception e = true ->
  load_main_config = inl e \/
  (exists m, load_main_config = inr m /\ load_plugin_config = inl e) ->
  let built :=
    __init__ (inr tt) load_main_config load_plugin_config XYBotDB_new FastAPI_new
      blank in
  res built = inr tt /\
  enable (final built) = Some false /\
  app (final built) = None /\
  (forall thread_start bot,
      let enabled := on_enable (inr tt) thread_start bot (final built) in
      res enabled = inr tt /\
      ~ In ThreadStart (emitted enabled) /\
      (forall wxid text, ~ In (SendText wxid text) (emitted enabled)) /\
      server_thread (final enabled) = None).
Proof.
  intros He Hfail. cbv zeta.
  rewrite (init_when_config_fails _ _ _ _ e He Hfail). cbn [res final].
  split; [reflexivity|]. split; [reflexivity|]. split; [reflexivity|].
  intros thread_start bot. cbv zeta.
  rewrite on_enable_when_disabled by reflexivity. cbn [res final emitted].
  split; [reflexivity|].
  split; [intros [H|[]]; discriminate|].
  split; [intros wxid text [H|[]]; discriminate|reflexivity].
Qed.

(** C7 on a missing main_config.toml. *)
Lemma C7_config_failure_disables_witness :
  let built :=
    __init__ (inr tt) (inl FileNotFoundError) (inr (toml_with_tip "ready"))
      (inr tt) (inr tt) blank in
  res built = inr tt /\ enable (final built) = Some false.
Proof.
  cbv zeta.
  refine ((fun H => conj (proj1 H) (proj1 (proj2 H)))
            (C7_config_failure_disables (inl FileNotFoundError)
               (inr (toml_with_tip "ready")) (inr tt) (inr tt)
               FileNotFoundError _ _)).
  - reflexivity.
  - left. reflexivity.
Defined.

(** When both files load and nothing else fails, every attribute is
    assigned, [enable] holds the configured value and the four routes are
    registered. *)
Lemma init_succeeds (m : MainToml) (t : PluginToml) :
  let built := __init__ (inr tt) (inr m) (inr t) (inr tt) (inr tt) blank in
  res built = inr tt /\
  enable (final built)
  = Some (get_or (t_enable (get_or (t_OpenAIAPI t) empty_table)) false) /\
  settings (final built)
  = Some (read_settings (get_or (t_OpenAIAPI t) empty_table)) /\
  server (final built) = Some None /\
  option_map routes (app (final built))
  = Some [("GET", "/v1/models"); ("POST", "/v1/chat/completions");
          ("GET", "/"); ("GET", "/docs")].
Proof. cbv zeta. repeat split. Qed.

(* ===================================================================== *)
(** ** The notification loop (lines 255-261) *)
(* ===================================================================== *)

(** One turn leaves the object as it is; the only message it can send goes
    to its admin and carries the configured tip. *)
Lemma notify_admin_effects (b : Bot) (admin : string) (self : OpenAIAPI) :
  final (notify_admin b admin self) = self /\
  (forall wxid text,
      In (SendText wxid text) (emitted (notify_admin b admin self)) ->
      wxid = admin /\ exists cfg, settings self = Some cfg /\ command_tip cfg = text).
Proof.
  unfold notify_admin, try_except, bind, getattr, emit, lift.
  destruct (settings self) as [cfg|]; cbn.
  - destruct (send_text_message b admin (command_tip cfg)) as [e|u]; cbn.
    + destruct (is_Exception e); cbn; split; try reflexivity;
        intros wxid text H; intuition (try discriminate);
        match goal with
        | H : SendText _ _ = SendText _ _ |- _ => injection H as <- <-
        end; eauto.
    + split; [reflexivity|].
      intros wxid text [H|[]]. injection H as <- <-. eauto.
  - split; [reflexivity|]. intros wxid text [H|[]]. discriminate.
Qed.

Lemma notify_admins_final (b : Bot) (l : list string) :
  forall self,
    final (notify_admins b l self) = self /\
    (forall wxid text,
        In (SendText wxid text) (emitted (notify_admins b l self)) ->
        In wxid l /\ exists cfg, settings self = Some cfg /\ command_tip cfg = text).
Proof.
  induction l as [|admin rest IH]; intros self.
  - cbn. split; [reflexivity|]. intros wxid text [].
  - cbn [notify_admins]. unfold bind.
    destruct (notify_admin_effects b admin self) as [Hf Hev].
    destruct (notify_admin b admin self) as [[e|u] s1 evs1]; cbn in Hf, Hev; subst s1.
    + cbn. split; [reflexivity|].
      intros wxid text H. destruct (Hev wxid text H) as [-> Hc]. split; [now left|exact Hc].
    + destruct (IH self) as [Hf' Hev'].
      destruct (notify_admins b rest self) as [r s2 evs2]; cbn in Hf', Hev'; subst s2.
      cbn. split; [reflexivity|].
      intros wxid text H. apply in_app_or in H as [H|H].
      * destruct (Hev wxid text H) as [-> Hc]. split; [now left|exact Hc].
      * destruct (Hev' wxid text H) as [Hin Hc]. split; [now right|exact Hc].
Qed.

(* ===================================================================== *)
(** ** Shutdown ([on_disable], lines 267-274) *)
(* ===================================================================== *)

(** [self.server] is read first: with the attribute unset the hook raises
    before anything else happens. *)
Lemma on_disable_unset_server (PluginBase_on_disable : result unit) (self : OpenAIAPI) :
  server self = None ->
  on_disable PluginBase_on_disable self
  = mkOutcome
      (inl (AttributeError "'OpenAIAPI' object has no attribute 'server'"))
      self [].
Proof.
  intros H. unfold on_disable, bind, getattr. now rewrite H.
Qed.

(** With the attribute assigned, the hook itself does not raise: a server
    object gets [should_exit = True], [None] is skipped, and what remains is
    the hook of the base class. *)
Lemma on_disable_initialised (self : OpenAIAPI) (srv : option Server) :
  server self = Some srv ->
  res (on_disable (inr tt) self) = inr tt /\
  server (final (on_disable (inr tt) self))
  = Some (option_map (fun _ => mkServer true) srv).
Proof.
  intros H. unfold on_disable, bind, getattr, lift, ret, set_server, emit.
  rewrite H.
  destruct srv as [s|]; cbn; split; (reflexivity || exact H).
Qed.

(** A second [on_disable] changes nothing more. *)
Lemma on_disable_twice (self : OpenAIAPI) (srv : option Server) :
  server self = Some srv ->
  let once := final (on_disable (inr tt) self) in
  res (on_disable (inr tt) once) = inr tt /\
  final (on_disable (inr tt) once) = once.
Proof.
  intros H. cbv zeta.
  unfold on_disable, bind, getattr, lift, ret, set_server, emit.
  rewrite H.
  destruct srv as [s|]; cbn; [|rewrite H]; split; reflexivity.
Qed.

(** No hook unsets [server]: once assigned it stays assigned through any
    sequence of calls. *)
Lemma run_hook_keeps_server (h : hook) (self : OpenAIAPI) :
  server self <> None -> server (final (run_hook h self)) <> None.
Proof.
  intros H. destruct h as [bot| |]; cbn [run_hook].
  - unfold on_enable, bind, lift, getattr.
    destruct (enable self) as [[|]|]; cbn; try exact H.
    unfold try_except, bind, set_server_thread, lift, emit, getattr.
    cbn [server enable settings].
    destruct (settings self) as [cfg|]; cbn; try exact H.
    unfold send_tips.
    destruct bot as [b|]; cbn; try exact H.
    unfold bind, getattr. cbn [settings]. cbn.
    destruct (PyStr.truthy (command_tip cfg)); cbn; try exact H.
    destruct (admins self) as [l|]; cbn; try exact H.
    match goal with
    | |- context [notify_admins b l ?s] =>
        destruct (notify_admins_final b l s) as [Hf _];
        destruct (notify_admins b l s) as [[e|[]] s' evs]; cbn in *; subst s'
    end.
    + destruct (is_Exception e); cbn; exact H.
    + exact H.
  - unfold _start_server, bind, getattr, set_server.
    destruct (app self); cbn; [|exact H].
    destruct (settings self) eqn:Hset; cbn; rewrite ?Hset; cbn;
      [discriminate|exact H].
  - destruct (server self) as [srv|] eqn:Hs; [|congruence].
    destruct (on_disable_initialised self srv Hs) as [_ ->]. discriminate.
Qed.

Lemma after_hooks_keep_server (hs : list hook) :
  forall self, server self <> None -> server (after_hooks hs self) <> None.
Proof.
  induction hs as [|h hs IH]; intros self H; cbn [after_hooks].
  - exact H.
  - apply IH. now apply run_hook_keeps_server.
Qed.

(** After a construction that succeeded, [on_disable] returns normally
    whatever calls came before: never enabled, enabled with or without the
    thread having created the server, already disabled. *)
Lemma on_disable_after_successful_init (m : MainToml) (t : PluginToml) (hs : list hook) :
  let built := final (__init__ (inr tt) (inr m) (inr t) (inr tt) (inr tt) blank) in
  res (on_disable (inr tt) (after_hooks hs built)) = inr tt.
Proof.
  cbv zeta.
  set (built := final (__init__ (inr tt) (inr m) (inr t) (inr tt) (inr tt) blank)).
  assert (H : server (after_hooks hs built) <> None).
  { apply after_hooks_keep_server. discriminate. }
  destruct (server (after_hooks hs built)) as [srv|] eqn:Hs; [|congruence].
  now destruct (on_disable_initialised _ srv Hs).
Qed.

(** C8, at the failing input: main_config.toml is missing, so [__init__]
    leaves through its [except] clause before line 94 has assigned
    [self.server]; the plugin is disabled and was never started.  The first
    statement of [on_disable] then reads [self.server] and raises
    [AttributeError], while the claim asks that the call never raises. *)
Theorem C8_on_disable_raises_after_failed_init :
  let built :=
    __init__ (inr tt) (inl FileNotFoundError) (inr (toml_with_tip ""))
      (inr tt) (inr tt) blank in
  res built = inr tt /\
  enable (final built) = Some false /\
  server (final built) = None /\
  res (on_disable (inr tt) (final built))
  = inl (AttributeError "'OpenAIAPI' object has no attribute 'server'") /\
  is_Exception (AttributeError "'OpenAIAPI' object has no attribute 'server'") = true.
Proof. cbv zeta. repeat split. Qed.

(* ===================================================================== *)
(** ** Startup ([on_enable], lines 238-265) *)
(* ===================================================================== *)

(** A message to an admin is sent by [send_tips] only: with a bot handle,
    from the configured tip, which is then not empty. *)
Lemma send_tips_sends (bot : option Bot) (self : OpenAIAPI) (wxid text : string) :
  In (SendText wxid text) (emitted (send_tips bot self)) ->
  (exists b, bot = Some b) /\
  exists cfg, settings self = Some cfg /\ command_tip cfg = text /\ text <> "".
Proof.
  unfold send_tips. destruct bot as [b|]; [|intros []].
  unfold bind, getattr.
  destruct (settings self) as [cfg|] eqn:Hset; [|intros []].
  destruct (PyStr.truthy (command_tip cfg)) eqn:Htip; [|intros []].
  destruct (admins self) as [l|]; [|intros []].
  destruct (notify_admins_final b l self) as [_ Hev].
  destruct (notify_admins b l self) as [r s evs]. cbn in *.
  intros H. destruct (Hev wxid text H) as [_ (cfg' & Hc & Ht)].
  split; [eauto|]. exists cfg. split; [reflexivity|].
  assert (cfg' = cfg) by congruence. subst cfg'. split; [exact Ht|].
  subst text. now apply truthy_true_iff.
Qed.

(** [send_tips] leaves the object as it is. *)
Lemma send_tips_final (bot : option Bot) (self : OpenAIAPI) :
  final (send_tips bot self) = self.
Proof.
  unfold send_tips. destruct bot as [b|]; [|reflexivity].
  unfold bind, getattr.
  destruct (settings self) as [cfg|]; [|reflexivity].
  destruct (PyStr.truthy (command_tip cfg)); [|reflexivity].
  destruct (admins self) as [l|]; [|reflexivity].
  destruct (notify_admins_final b l self) as [Hf _].
  destruct (notify_admins b l self) as [[e|u] s evs]; cbn in *; exact Hf.
Qed.

(** C9. [on_enable] sends a startup tip to an admin only if the gateway is
    enabled, a bot handle was passed and the configured [command-tip] is
    not empty.  With the gateway enabled and an empty [command-tip] (the
    default), the server thread is started and no admin is notified. *)
Theorem C9_tips_need_bot_and_command_tip
  (PluginBase_on_enable thread_start : result unit) (bot : option Bot)
  (self : OpenAIAPI) :
  let enabled := on_enable PluginBase_on_enable thread_start bot self in
  (forall wxid text,
      In (SendText wxid text) (emitted enabled) ->
      enable self = Some true /\
      (exists b, bot = Some b) /\
      exists cfg, settings self = Some cfg /\ command_tip cfg = text /\ text <> "") /\
  (forall cfg,
      PluginBase_on_enable = inr tt ->
      thread_start = inr tt ->
      enable self = Some true ->
      settings self = Some cfg ->
      command_tip cfg = "" ->
      res enabled = inr tt /\
      emitted enabled
      = [ThreadStart;
         Log "success"
           ("OpenAIAPI服务器已启动，监听地址: " ++ host cfg ++ ":" ++ str_of_Z (port cfg))] /\
      server_thread (final enabled) = Some (Some DaemonThread) /\
      (forall wxid text, ~ In (SendText wxid text) (emitted enabled))).
Proof.
  cbv zeta. split.
  - intros wxid text.
    unfold on_enable, bind, lift, getattr.
    destruct PluginBase_on_enable as [e|[]]; [intros []|].
    destruct (enable self) as [[|]|] eqn:Hen; cbn;
      [|intros [H|[]]; discriminate|intros []].
    unfold try_except, bind, set_server_thread, lift, emit, getattr.
    cbn [settings].
    destruct thread_start as [e|[]]; cbn.
    { destruct (is_Exception e); cbn; intros H; intuition discriminate. }
    destruct (settings self) as [cfg|] eqn:Hset; cbn.
    2:{ intros H; intuition discriminate. }
    match goal with
    | |- context [send_tips bot ?s] =>
        pose proof (send_tips_sends bot s wxid text) as Hsend;
        destruct (send_tips bot s) as [[e|u] s' evs]
    end; cbn in Hsend |- *.
    + destruct (is_Exception e); cbn; intros H.
      * destruct H as [H|[H|H]]; try discriminate.
        apply in_app_or in H as [H|H]; [|cbn in H; intuition discriminate].
        destruct (Hsend H) as [Hb (cfg' & Hc & Ht)].
        split; [reflexivity|]. split; [exact Hb|]. exists cfg'. rewrite <- Hc.
        split; [congruence|exact Ht].
      * destruct H as [H|[H|H]]; try discriminate.
        destruct (Hsend H) as [Hb (cfg' & Hc & Ht)].
        split; [reflexivity|]. split; [exact Hb|]. exists cfg'. rewrite <- Hc.
        split; [congruence|exact Ht].
    + intros H. destruct H as [H|[H|H]]; try discriminate.
      destruct (Hsend H) as [Hb (cfg' & Hc & Ht)].
      split; [reflexivity|]. split; [exact Hb|]. exists cfg'. rewrite <- Hc.
      split; [congruence|exact Ht].
  - intros cfg -> -> Hen Hset Htip.
    assert (Hrun :
              on_enable (inr tt) (inr tt) bot self
              = mkOutcome (inr tt)
                  (mkPlugin (enable self) (settings self) (db self) (admins self)
                     (app self) (server self) (Some (Some DaemonThread)))
                  [ThreadStart;
                   Log "success"
                     ("OpenAIAPI服务器已启动，监听地址: " ++ host cfg ++ ":"
                      ++ str_of_Z (port cfg))]).
    { destruct self as [en st d a ap sv th]. cbn in Hen, Hset. subst en st.
      unfold on_enable, try_except, send_tips, bind, lift, getattr,
        set_server_thread, emit, ret.
      cbn. destruct bot; cbn; rewrite ?Htip; reflexivity. }
    rewrite Hrun. cbn [res final emitted server_thread].
    split; [reflexivity|]. split; [reflexivity|]. split; [reflexivity|].
    intros wxid text [H|[H|[]]]; discriminate.
Qed.

(** C9 on a plugin built from a config.toml with [enable = true] and no
    [command-tip], enabled with a bot: the thread starts, nobody is told. *)
Lemma C9_tips_need_bot_and_command_tip_witness :
  let built :=
    final (__init__ (inr tt) (inr main_toml) (inr (toml_with_tip ""))
             (inr tt) (inr tt) blank) in
  let enabled := on_enable (inr tt) (inr tt) (Some flaky_bot) built in
  res enabled = inr tt /\
  emitted enabled
  = [ThreadStart; Log "success" "OpenAIAPI服务器已启动，监听地址: 0.0.0.0:8100"].
Proof.
  cbv zeta.
  refine ((fun H => conj (proj1 H) (proj1 (proj2 H)))
            (proj2 (C9_tips_need_bot_and_command_tip (inr tt) (inr tt)
                      (Some flaky_bot)
                      (final (__init__ (inr tt) (inr main_toml)
                                (inr (toml_with_tip "")) (inr tt) (inr tt) blank)))
               (read_settings
                  (mkTable (Some true) None None None None None None (Some "")
                     None None None None None None None None None))
               _ _ _ _ _)); reflexivity.
Defined.

(** With a tip configured, every admin is tried in turn, also after a
    failed send. *)
Lemma every_admin_is_tried :
  let built :=
    final (__init__ (inr tt) (inr main_toml) (inr (toml_with_tip "ready"))
             (inr tt) (inr tt) blank) in
  emitted (on_enable (inr tt) (inr tt) (Some flaky_bot) built)
  = [ThreadStart;
     Log "success" "OpenAIAPI服务器已启动，监听地址: 0.0.0.0:8100";
     SendText "wxid_admin1" "ready";
     Log "error" "向管理员 wxid_admin1 发送提示消息失败: send failed";
     SendText "wxid_admin2" "ready"].
Proof. reflexivity. Qed.

(* ===================================================================== *)
(** ** More on the forwarding handler *)
(* ===================================================================== *)

(** X1. One request makes at most one POST to the upstream.  It makes one
    exactly when the body parsed and the defaults could be merged; the
    handler leaves the clock alone. *)
Theorem X1_at_most_one_post
  (self : GatewayConfig) (upstream : OutboundRequest -> result UpstreamResponse)
  (request : Request) (c : clock) :
  let run := create_chat_completion self upstream request c in
  (count_posts (emitted run) <= 1)%nat /\
  (count_posts (emitted run) = 1%nat <->
   exists body body',
     request_json request = inr body /\ apply_defaults self body = inr body') /\
  final run = c.
Proof.
  cbv zeta. rewrite create_chat_completion_run, forward_run. cbv zeta.
  destruct (request_json request) as [e|body]; cbn.
  { destruct (is_Exception e); cbn; (split; [lia|split; [|reflexivity]]);
      (split; [discriminate|intros (b & b' & H & _); discriminate]). }
  destruct (apply_defaults self body) as [e|body'] eqn:Hd; cbn.
  { destruct (is_Exception e); cbn; (split; [lia|split; [|reflexivity]]);
      (split; [discriminate|intros (b & b' & H & H'); congruence]). }
  destruct (upstream (outbound_request self request body')) as [e|r]; cbn.
  { destruct (is_Exception e); cbn; (split; [lia|split; [|reflexivity]]);
      (split; [eauto|reflexivity]). }
  destruct (response_json r) as [e|j]; cbn.
  { destruct (is_Exception e); cbn; (split; [lia|split; [|reflexivity]]);
      (split; [eauto|reflexivity]). }
  split; [lia|split; [|reflexivity]]. split; [eauto|reflexivity].
Qed.

(** X1 on a request whose body parses: one POST. *)
Lemma X1_at_most_one_post_witness :
  count_posts
    (emitted (create_chat_completion default_settings upstream_429
                (request_with (inr sample_body) None) 0%nat)) = 1%nat.
Proof.
  apply (proj2 (proj1 (proj2 (X1_at_most_one_post default_settings upstream_429
                                (request_with (inr sample_body) None) 0%nat)))).
  exists sample_body, (JObj (merge_object default_settings
                                [("model", JStr "gpt-3.5-turbo"); ("messages", JArr [])])).
  split; reflexivity.
Defined.

(** X2. Every POST goes to [<base_url>/chat/completions], through the
    configured proxy when [http-proxy] is not empty and directly otherwise,
    and declares [Content-Type: application/json]. *)
Theorem X2_post_target_and_proxy
  (self : GatewayConfig) (upstream : OutboundRequest -> result UpstreamResponse)
  (request : Request) (c : clock) (o : OutboundRequest) :
  In (UpstreamPost o) (emitted (create_chat_completion self upstream request c)) ->
  out_url o = base_url self ++ "/chat/completions" /\
  (http_proxy self = "" -> out_proxy o = None) /\
  (http_proxy self <> "" -> out_proxy o = Some (http_proxy self)) /\
  dict_get "Content-Type" (out_headers o) = Some "application/json".
Proof.
  intros Hposted.
  destruct (posted_request self upstream request c o Hposted)
    as (body & body' & _ & _ & ->).
  cbn [outbound_request out_url out_proxy out_headers].
  split; [reflexivity|]. unfold outbound_proxy.
  split; [intros ->; reflexivity|].
  split.
  - intros H. apply truthy_true_iff in H. now rewrite H.
  - rewrite outbound_headers_cases.
    destruct (PyStr.truthy (api_key self)); [reflexivity|].
    destruct (PyStr.truthy (caller_api_key request)); reflexivity.
Qed.

(** X2 on the default settings: the public endpoint, no proxy. *)
Lemma X2_post_target_and_proxy_witness :
  let o := outbound_request default_settings (request_with (inr (JObj [])) None)
             (JObj (merge_object default_settings [])) in
  out_url o = "https://api.openai.com/v1/chat/completions" /\ out_proxy o = None.
Proof.
  cbv zeta.
  refine ((fun H => conj (proj1 H) (proj1 (proj2 H) eq_refl))
            (X2_post_target_and_proxy default_settings upstream_ok
               (request_with (inr (JObj [])) None) 0%nat _ _)).
  vm_compute. left. reflexivity.
Defined.

(** X3. A body that is JSON [null], a boolean or a number is never
    forwarded: the first test ["model" not in body] raises [TypeError], the
    caller gets the 500 envelope and the upstream is not contacted. *)
Theorem X3_scalar_body_is_not_forwarded
  (self : GatewayConfig) (upstream : OutboundRequest -> result UpstreamResponse)
  (request : Request) (c : clock) (body : jvalue) :
  request_json request = inr body ->
  is_scalar body = true ->
  let run := create_chat_completion self upstream request c in
  res run
  = inr (JSONResponse 500
           (error_envelope
              (TypeError ("argument of type '" ++ type_name body
                          ++ "' is not iterable")))) /\
  count_posts (emitted run) = 0%nat.
Proof.
  intros Hj Hs. cbv zeta.
  rewrite create_chat_completion_run, forward_run, Hj. cbv zeta.
  destruct body as [|b|n|s|l|d]; try discriminate Hs; cbn; split; reflexivity.
Qed.

(** X3 on the body [5]. *)
Lemma X3_scalar_body_is_not_forwarded_witness :
  count_posts
    (emitted (create_chat_completion default_settings upstream_ok
                (request_with (inr (JNum (NInt 5))) None) 0%nat)) = 0%nat.
Proof.
  refine (proj2 (X3_scalar_body_is_not_forwarded default_settings upstream_ok
                   (request_with (inr (JNum (NInt 5))) None) 0%nat
                   (JNum (NInt 5)) _ _)); reflexivity.
Defined.

(** [if key not in body: body[key] = v] on a body that is not a dict either
    raises or leaves the body as it is. *)
Lemma set_default_non_object (key : string) (v body body' : jvalue) :
  (forall d, body <> JObj d) ->
  set_default key v body = inr body' -> body' = body.
Proof.
  intros Hno. unfold set_default.
  destruct body as [|b|n|s|l|d]; cbn; try discriminate.
  - destruct (PyStr.contains key s); cbn; [congruence|discriminate].
  - destruct (existsb (jvalue_is_str key) l); cbn; [congruence|discriminate].
  - now destruct (Hno d).
Qed.

Lemma set_default_max_tokens_non_object
  (self : GatewayConfig) (body body' : jvalue) :
  (forall d, body <> JObj d) ->
  set_default_max_tokens self body = inr body' -> body' = body.
Proof.
  intros Hno. unfold set_default_max_tokens.
  destruct body as [|b|n|s|l|d]; cbn; try discriminate.
  - destruct (negb (PyStr.contains "max_tokens" s) && number_gt0 (max_tokens self));
      cbn; [discriminate|congruence].
  - destruct (negb (existsb (jvalue_is_str "max_tokens") l)
              && number_gt0 (max_tokens self)); cbn; [discriminate|congruence].
  - now destruct (Hno d).
Qed.

(** X4. Only a JSON object ever receives defaults.  A body of another
    shape (a string, a list) that gets through the six membership tests is
    forwarded exactly as the caller sent it. *)
Theorem X4_non_object_body_is_not_changed
  (self : GatewayConfig) (body body' : jvalue) :
  (forall d, body <> JObj d) ->
  apply_defaults self body = inr body' ->
  body' = body.
Proof.
  intros Hno. unfold apply_defaults.
  destruct (set_default "model" (JStr (default_model self)) body)
    as [e|b1] eqn:H1; cbn [rbind]; [discriminate|].
  apply set_default_non_object in H1; [subst b1|exact Hno].
  destruct (set_default_max_tokens self body) as [e|b2] eqn:H2; cbn [rbind];
    [discriminate|].
  apply set_default_max_tokens_non_object in H2; [subst b2|exact Hno].
  destruct (set_default "temperature" (JNum (temperature self)) body)
    as [e|b3] eqn:H3; cbn [rbind]; [discriminate|].
  apply set_default_non_object in H3; [subst b3|exact Hno].
  destruct (set_default "top_p" (JNum (top_p self)) body)
    as [e|b4] eqn:H4; cbn [rbind]; [discriminate|].
  apply set_default_non_object in H4; [subst b4|exact Hno].
  destruct (set_default "frequency_penalty" (JNum (frequency_penalty self)) body)
    as [e|b5] eqn:H5; cbn [rbind]; [discriminate|].
  apply set_default_non_object in H5; [subst b5|exact Hno].
  intros H6. now apply set_default_non_object in H6.
Qed.

(** X4 on a list that names the six fields: it passes, unchanged. *)
Lemma X4_non_object_body_is_not_changed_witness :
  exists body',
    apply_defaults default_settings
      (JArr [JStr "model"; JStr "max_tokens"; JStr "temperature"; JStr "top_p";
             JStr "frequency_penalty"; JStr "presence_penalty"])
    = inr body' /\
    body' = JArr [JStr "model"; JStr "max_tokens"; JStr "temperature";
                  JStr "top_p"; JStr "frequency_penalty"; JStr "presence_penalty"].
Proof.
  eexists. split; [reflexivity|].
  apply (X4_non_object_body_is_not_changed default_settings).
  - intros d. discriminate.
  - reflexivity.
Defined.

Section MergeTwice.

Variable self : GatewayConfig.

Lemma setdefault_present {V} (k : string) (v : V) (d : pydict V) :
  dict_contains k d = true -> dict_setdefault k v d = d.
Proof. intros H. unfold dict_setdefault. now rewrite H. Qed.

(** After the merge the five unconditional fields are there, and
    [max_tokens] too when its default is above zero. *)
Lemma merged_has_field (d : pydict jvalue) (k : string) :
  In k ["model"; "temperature"; "top_p"; "frequency_penalty"; "presence_penalty"]
  \/ (k = "max_tokens" /\ number_gt0 (max_tokens self) = true) ->
  dict_contains k (merge_object self d) = true.
Proof.
  intros H. unfold dict_contains. rewrite dict_get_merge_object.
  destruct (dict_get k d); [reflexivity|].
  destruct H as [H|[-> Hgt]].
  - cbn [In] in H.
    destruct H as [<-|[<-|[<-|[<-|[<-|[]]]]]]; reflexivity.
  - cbn. now rewrite Hgt.
Qed.

Lemma merge_object_twice (d : pydict jvalue) :
  merge_object self (merge_object self d) = merge_object self d.
Proof.
  set (m := merge_object self d).
  unfold merge_object at 1. fold m.
  rewrite (setdefault_present "model") by (apply merged_has_field; cbn; tauto).
  assert (Hmax : (if number_gt0 (max_tokens self)
                  then dict_setdefault "max_tokens" (JNum (max_tokens self)) m
                  else m) = m).
  { destruct (number_gt0 (max_tokens self)) eqn:Hgt; [|reflexivity].
    apply setdefault_present, merged_has_field. now right. }
  rewrite Hmax.
  rewrite (setdefault_present "temperature") by (apply merged_has_field; cbn; tauto).
  rewrite (setdefault_present "top_p") by (apply merged_has_field; cbn; tauto).
  rewrite (setdefault_present "frequency_penalty")
    by (apply merged_has_field; cbn; tauto).
  apply setdefault_present, merged_has_field. cbn. tauto.
Qed.

End MergeTwice.

(** X5. Merging the defaults is idempotent: a body that has been through
    the merge comes out of a second merge unchanged, so a request replayed
    through the gateway reaches the upstream with the same body. *)
Theorem X5_merge_is_idempotent
  (self : GatewayConfig) (d d' : pydict jvalue) :
  apply_defaults self (JObj d) = inr (JObj d') ->
  apply_defaults self (JObj d') = inr (JObj d').
Proof.
  rewrite apply_defaults_object. intros [= <-].
  rewrite apply_defaults_object. now rewrite merge_object_twice.
Qed.

(** X5 on the sample body. *)
Lemma X5_merge_is_idempotent_witness :
  apply_defaults keyed_settings
    (JObj (merge_object keyed_settings
             [("model", JStr "gpt-3.5-turbo"); ("messages", JArr [])]))
  = inr (JObj (merge_object keyed_settings
                 [("model", JStr "gpt-3.5-turbo"); ("messages", JArr [])])).
Proof.
  apply (X5_merge_is_idempotent keyed_settings
           [("model", JStr "gpt-3.5-turbo"); ("messages", JArr [])]).
  reflexivity.
Defined.

Section KeysStayUnique.
Context {V : Type}.

Lemma dict_get_none_not_key (k : string) (d : pydict V) :
  dict_get k d = None -> ~ In k (dict_keys d).
Proof.
  induction d as [|[k' v'] d IH]; cbn; intros H.
  - tauto.
  - destruct (String.eqb_spec k' k) as [->|Hne]; [discriminate|].
    intros [Heq|Hin]; [congruence|]. now apply IH.
Qed.

Lemma setdefault_keys_unique (k : string) (v : V) (d : pydict V) :
  NoDup (dict_keys d) -> NoDup (dict_keys (dict_setdefault k v d)).
Proof.
  intros Hnd. unfold dict_setdefault, dict_contains.
  destruct (dict_get k d) eqn:Hk; [exact Hnd|].
  rewrite dict_set_absent by exact Hk.
  unfold dict_keys. rewrite map_app. cbn.
  apply NoDup_app; [exact Hnd|repeat constructor; tauto|].
  intros a Ha [<-|[]]. now apply (dict_get_none_not_key k d Hk).
Qed.

End KeysStayUnique.

(** X6. The merge keeps the body a well-formed object: if no key occurs
    twice in the caller's body, none occurs twice in the body sent to the
    upstream. *)
Theorem X6_merge_keeps_keys_unique
  (self : GatewayConfig) (d d' : pydict jvalue) :
  NoDup (dict_keys d) ->
  apply_defaults self (JObj d) = inr (JObj d') ->
  NoDup (dict_keys d').
Proof.
  intros Hnd. rewrite apply_defaults_object. intros [= <-].
  unfold merge_object.
  repeat apply setdefault_keys_unique.
  destruct (number_gt0 (max_tokens self));
    repeat apply setdefault_keys_unique; exact Hnd.
Qed.

(** X6 on the sample body. *)
Lemma X6_merge_keeps_keys_unique_witness :
  NoDup (dict_keys (merge_object keyed_settings
                      [("model", JStr "gpt-3.5-turbo"); ("messages", JArr [])])).
Proof.
  apply (X6_merge_keeps_keys_unique keyed_settings
           [("model", JStr "gpt-3.5-turbo"); ("messages", JArr [])]).
  - repeat constructor; cbn; intuition discriminate.
  - reflexivity.
Defined.

(** X7. Where line 135 does what it is meant to do: for a header
    "Bearer " followed by a rest that holds no further "Bearer ", the
    caller's token is that rest; a header value without any "Bearer " is
    taken whole; without the header the token is empty. *)
Theorem X7_token_of_a_plain_bearer_header
  (body : result jvalue) (hs : list (string * string)) (rest : string) :
  PyStr.contains "Bearer " rest = false ->
  (headers_lookup "authorization" hs = Some ("Bearer " ++ rest) ->
   caller_api_key (mkRequest body hs) = rest) /\
  (headers_lookup "authorization" hs = Some rest ->
   caller_api_key (mkRequest body hs) = rest) /\
  (headers_lookup "authorization" hs = None ->
   caller_api_key (mkRequest body hs) = "").
Proof.
  intros Hrest. unfold caller_api_key, headers_get.
  change (PyStr.lower "Authorization") with "authorization".
  cbn [request_headers].
  split; [|split]; intros ->.
  - rewrite replace_leading by discriminate.
    now rewrite replace_absent.
  - now apply replace_absent.
  - reflexivity.
Qed.

(** X7 on [Bearer sk-test]. *)
Lemma X7_token_of_a_plain_bearer_header_witness :
  caller_api_key (mkRequest (inr sample_body) [("authorization", "Bearer sk-test")])
  = "sk-test".
Proof.
  refine (proj1 (X7_token_of_a_plain_bearer_header (inr sample_body)
                   [("authorization", "Bearer sk-test")] "sk-test" _) _);
    reflexivity.
Defined.

(** X8. The handler's [except Exception] does not catch what derives from
    [BaseException] only (a cancelled request, an interpreter exit): such
    an object raised under [try:] leaves the handler as raised, no 500
    response is built and nothing is logged. *)
Theorem X8_non_exception_leaves_the_handler
  (self : GatewayConfig) (upstream : OutboundRequest -> result UpstreamResponse)
  (request : Request) (c : clock) (e : pyexn) :
  raised_under_try self upstream request e ->
  is_Exception e = false ->
  let run := create_chat_completion self upstream request c in
  res run = inl e /\
  (forall level message, ~ In (Log level message) (emitted run)) /\
  ~ In LogTraceback (emitted run).
Proof.
  intros Hraised He. cbv zeta.
  apply (forward_raises_iff self upstream request c) in Hraised.
  rewrite create_chat_completion_run. cbv zeta. rewrite Hraised, He.
  split; [exact Hraised|].
  revert Hraised. rewrite forward_run. cbv zeta.
  destruct (request_json request) as [e0|body]; cbn;
    [intros _; split; [intros ? ? []|intros []]|].
  destruct (apply_defaults self body) as [e0|body']; cbn;
    [intros _; split; [intros ? ? []|intros []]|].
  destruct (upstream (outbound_request self request body')) as [e0|r]; cbn.
  - intros _. split; [intros ? ? [H|[]]; discriminate|intros [H|[]]; discriminate].
  - destruct (response_json r) as [e0|j]; cbn; intros _;
      (split; [intros ? ? [H|[]]; discriminate|intros [H|[]]; discriminate]).
Qed.

(** X8 on a request cancelled while the upstream call is awaited. *)
Lemma X8_non_exception_leaves_the_handler_witness :
  res (create_chat_completion default_settings (fun _ => inl CancelledError)
         (request_with (inr (JObj [])) None) 0%nat)
  = inl CancelledError.
Proof.
  refine (proj1 (X8_non_exception_leaves_the_handler default_settings
                   (fun _ => inl CancelledError)
                   (request_with (inr (JObj [])) None) 0%nat CancelledError _ _)).
  - right. right. left.
    exists (JObj []), (JObj (merge_object default_settings [])).
    repeat split.
  - reflexivity.
Defined.

(* ===================================================================== *)
(** ** The informational routes (lines 204-221) *)
(* ===================================================================== *)

Lemma ids_of_descriptors (now : nat -> Z) (ids : list string) :
  forall c : nat,
    map (json_member "id")
      (map (fun p => model_descriptor (snd p) (now (fst p)))
         (combine (seq c (length ids)) ids))
    = map (fun model_id => Some (JStr model_id)) ids.
Proof.
  induction ids as [|model_id rest IH]; intros c; cbn.
  - reflexivity.
  - now rewrite IH.
Qed.

(** X9. GET / advertises, under [models], exactly the identifiers that
    GET /v1/models describes, in the same order, together with the plugin
    version and the documentation path; it reads no clock, contacts no
    upstream and cannot raise. *)
Theorem X9_root_and_models_agree (self : GatewayConfig) (now : nat -> Z) (c : clock) :
  exists data info,
    res (list_models self now c)
    = inr (JObj [("object", JStr "list"); ("data", JArr data)]) /\
    res (root self c) = inr info /\
    json_member "models" info = Some (JArr (map JStr (available_models self))) /\
    map (json_member "id") data
    = map (fun model_id => Some (JStr model_id)) (available_models self) /\
    json_member "version" info = Some (JStr "1.0.0") /\
    json_member "documentation" info = Some (JStr "/docs") /\
    emitted (root self c) = [] /\ final (root self c) = c.
Proof.
  set (ids := available_models self).
  exists (map (fun p => model_descriptor (snd p) (now (fst p)))
            (combine (seq c (length ids)) ids)).
  eexists.
  split.
  { unfold list_models, bind, ret. fold ids. rewrite list_models_loop_run.
    cbn [app]. reflexivity. }
  split; [reflexivity|].
  split; [reflexivity|]. split; [apply ids_of_descriptors|].
  repeat split.
Qed.

(* ===================================================================== *)
(** ** More on construction *)
(* ===================================================================== *)

(** X10. [__init__] swallows every exception of its steps, and the plugin
    comes out enabled only from a complete construction: [enable] is [True]
    afterwards exactly when both files loaded, [XYBotDB()] and the FastAPI
    setup succeeded and the configuration says [enable = true] (a missing
    table or key counts as [false]).  An enabled plugin has every attribute
    assigned: settings, database, admins, the four routes, and [server] and
    [server_thread] set to [None]. *)
Theorem X10_enabled_only_after_complete_init
  (load_main_config : result MainToml) (load_plugin_config : result PluginToml)
  (XYBotDB_new FastAPI_new : result unit) :
  (forall e,
      load_main_config = inl e \/ load_plugin_config = inl e \/
      XYBotDB_new = inl e \/ FastAPI_new = inl e ->
      is_Exception e = true) ->
  let built :=
    __init__ (inr tt) load_main_config load_plugin_config XYBotDB_new FastAPI_new
      blank in
  res built = inr tt /\
  (enable (final built) = Some true \/ enable (final built) = Some false) /\
  (enable (final built) = Some true <->
   exists m t,
     load_main_config = inr m /\ load_plugin_config = inr t /\
     XYBotDB_new = inr tt /\ FastAPI_new = inr tt /\
     get_or (t_enable (get_or (t_OpenAIAPI t) empty_table)) false = true) /\
  (enable (final built) = Some true ->
   settings (final built) <> None /\
   db (final built) = Some tt /\
   admins (final built) <> None /\
   option_map routes (app (final built))
   = Some [("GET", "/v1/models"); ("POST", "/v1/chat/completions");
           ("GET", "/"); ("GET", "/docs")] /\
   server (final built) = Some None /\
   server_thread (final built) = Some None).
Proof.
  intros Hexn. cbv zeta.
  destruct load_main_config as [e|m].
  { assert (He := Hexn e (or_introl eq_refl)).
    destruct e as [[|] cls msg]; [clear He|discriminate He].
    split; [reflexivity|]. split; [right; reflexivity|].
    split; [split; [discriminate|intros (m' & t' & H & _); discriminate]|].
    discriminate. }
  destruct load_plugin_config as [e|t].
  { assert (He := Hexn e (or_intror (or_introl eq_refl))).
    destruct e as [[|] cls msg]; [clear He|discriminate He].
    split; [reflexivity|]. split; [right; reflexivity|].
    split; [split; [discriminate|intros (m' & t' & _ & H & _); discriminate]|].
    discriminate. }
  destruct XYBotDB_new as [e|[]].
  { assert (He := Hexn e (or_intror (or_intror (or_introl eq_refl)))).
    destruct e as [[|] cls msg]; [clear He|discriminate He].
    split; [reflexivity|]. split; [right; reflexivity|].
    split; [split; [discriminate|intros (m' & t' & _ & _ & H & _); discriminate]|].
    discriminate. }
  destruct FastAPI_new as [e|[]].
  { assert (He := Hexn e (or_intror (or_intror (or_intror eq_refl)))).
    destruct e as [[|] cls msg]; [clear He|discriminate He].
    split; [reflexivity|]. split; [right; reflexivity|].
    split; [split; [discriminate|intros (m' & t' & _ & _ & _ & H & _); discriminate]|].
    discriminate. }
  clear Hexn.
  change (enable (final (__init__ (inr tt) (inr m) (inr t) (inr tt) (inr tt) blank)))
    with (Some (get_or (t_enable (get_or (t_OpenAIAPI t) empty_table)) false)).
  split; [reflexivity|].
  split; [destruct (get_or (t_enable (get_or (t_OpenAIAPI t) empty_table)) false); auto|].
  split.
  - split.
    + intros [= H]. exists m, t. auto.
    + intros (m' & t' & _ & [= <-] & _ & _ & H). now rewrite H.
  - intros _. repeat split; discriminate.
Qed.

(** X10 on a missing plugin config.toml, and on a complete construction. *)
Lemma X10_enabled_only_after_complete_init_witness :
  enable (final (__init__ (inr tt) (inr main_toml) (inl FileNotFoundError)
                   (inr tt) (inr tt) blank)) <> Some true /\
  enable (final (__init__ (inr tt) (inr main_toml) (inr (toml_with_tip "ready"))
                   (inr tt) (inr tt) blank)) = Some true.
Proof.
  split.
  - pose proof (X10_enabled_only_after_complete_init (inr main_toml)
                  (inl FileNotFoundError) (inr tt) (inr tt)) as T.
    cbv zeta in T. lapply T.
    + intros (_ & _ & [Hiff _] & _) H.
      destruct (Hiff H) as (m & t & _ & H' & _). discriminate H'.
    + intros e [H|[H|[H|H]]]; try discriminate H. now injection H as <-.
  - pose proof (X10_enabled_only_after_complete_init (inr main_toml)
                  (inr (toml_with_tip "ready")) (inr tt) (inr tt)) as T.
    cbv zeta in T. lapply T.
    + intros (_ & _ & [_ Hiff] & _). apply Hiff.
      exists main_toml, (toml_with_tip "ready"). repeat split.
    + intros e [H|[H|[H|H]]]; discriminate H.
Defined.

(* ===================================================================== *)
(** ** More on startup and shutdown *)
(* ===================================================================== *)

Lemma sent_texts_app (evs evs' : list event) :
  sent_texts (evs ++ evs') = (sent_texts evs ++ sent_texts evs')%list.
Proof.
  induction evs as [|ev evs IH]; [reflexivity|].
  destruct ev; cbn; now rewrite IH.
Qed.

Lemma sent_texts_in (evs : list event) (wxid text : string) :
  In (wxid, text) (sent_texts evs) <-> In (SendText wxid text) evs.
Proof.
  induction evs as [|ev evs IH]; [tauto|].
  destruct ev; cbn; rewrite IH; intuition (try discriminate; try congruence).
Qed.

Section Notifying.

Variable b : Bot.
(** Sending fails with instances of [Exception] only. *)
Hypothesis sends_raise_exceptions :
  forall wxid text e, send_text_message b wxid text = inl e -> is_Exception e = true.

(** One turn with the settings in place: the message is tried once and the
    turn ends normally whether or not it was delivered. *)
Lemma notify_admin_tries_once (admin : string) (self : OpenAIAPI) (cfg : GatewayConfig) :
  settings self = Some cfg ->
  res (notify_admin b admin self) = inr tt /\
  sent_texts (emitted (notify_admin b admin self)) = [(admin, command_tip cfg)].
Proof.
  intros Hset. unfold notify_admin, try_except, bind, getattr, emit, lift.
  rewrite Hset. cbn.
  destruct (send_text_message b admin (command_tip cfg)) as [e|[]] eqn:Hsend; cbn.
  - rewrite (sends_raise_exceptions _ _ _ Hsend). cbn. split; reflexivity.
  - split; reflexivity.
Qed.

Lemma notify_admins_tries_all (l : list string) (self : OpenAIAPI) (cfg : GatewayConfig) :
  settings self = Some cfg ->
  res (notify_admins b l self) = inr tt /\
  sent_texts (emitted (notify_admins b l self))
  = map (fun admin => (admin, command_tip cfg)) l.
Proof.
  intros Hset. induction l as [|admin rest IH].
  - split; reflexivity.
  - cbn [notify_admins map]. unfold bind.
    destruct (notify_admin_tries_once admin self cfg Hset) as [Hr Hs].
    destruct (notify_admin_effects b admin self) as [Hf _].
    destruct (notify_admin b admin self) as [r s1 evs1]. cbn in Hr, Hs, Hf.
    subst r s1.
    destruct IH as [Hr' Hs'].
    destruct (notify_admins b rest self) as [r' s2 evs2]. cbn in Hr', Hs' |- *.
    split; [exact Hr'|]. now rewrite sent_texts_app, Hs, Hs'.
Qed.

(** The loop never ends by raising, with or without settings. *)
Lemma notify_admins_returns (l : list string) (self : OpenAIAPI) :
  res (notify_admins b l self) = inr tt.
Proof.
  destruct (settings self) as [cfg|] eqn:Hset.
  - now destruct (notify_admins_tries_all l self cfg Hset).
  - induction l as [|admin rest IH]; [reflexivity|].
    cbn [notify_admins]. unfold bind.
    assert (Hone : notify_admin b admin self
                   = mkOutcome (inr tt) self
                       [Log "error"
                          ("向管理员 " ++ admin ++ " 发送提示消息失败: "
                           ++ "'OpenAIAPI' object has no attribute 'command_tip'")]).
    { unfold notify_admin, try_except, bind, getattr. now rewrite Hset. }
    rewrite Hone.
    destruct (notify_admins b rest self) as [r' s2 evs2]. cbn in IH |- *. exact IH.
Qed.

End Notifying.

(** What [send_tips] can end with: it returns, or raises the
    [AttributeError] of an unset attribute. *)
Lemma send_tips_result (bot : option Bot) (self : OpenAIAPI) :
  (forall b wxid text e,
      bot = Some b -> send_text_message b wxid text = inl e -> is_Exception e = true) ->
  res (send_tips bot self) = inr tt \/
  exists e, res (send_tips bot self) = inl e /\ is_Exception e = true.
Proof.
  intros Hsend. unfold send_tips. destruct bot as [b|]; [|now left].
  unfold bind, getattr.
  destruct (settings self) as [cfg|]; [|right; eexists; split; reflexivity].
  destruct (PyStr.truthy (command_tip cfg)); [|now left].
  destruct (admins self) as [l|]; [|right; eexists; split; reflexivity].
  assert (Hr := notify_admins_returns b (fun w t e => Hsend b w t e eq_refl) l self).
  destruct (notify_admins b l self) as [r s evs]. cbn in Hr |- *. now left.
Qed.

(** X11. [on_enable] keeps failures to itself: once [enable] is assigned
    (as it is after every construction), a thread that cannot be started,
    an attribute that is missing or a message that cannot be sent is logged
    and the hook returns normally. *)
Theorem X11_on_enable_contains_failures
  (thread_start : result unit) (bot : option Bot) (self : OpenAIAPI) (en : bool) :
  enable self = Some en ->
  (forall e, thread_start = inl e -> is_Exception e = true) ->
  (forall b wxid text e,
      bot = Some b -> send_text_message b wxid text = inl e -> is_Exception e = true) ->
  res (on_enable (inr tt) thread_start bot self) = inr tt.
Proof.
  intros Hen Hthread Hsend.
  unfold on_enable, bind, lift, getattr. rewrite Hen.
  destruct en; cbn; [|reflexivity].
  unfold try_except, bind, set_server_thread, lift, emit, getattr. cbn [settings].
  destruct thread_start as [e|[]]; cbn.
  { rewrite (Hthread e eq_refl). reflexivity. }
  destruct (settings self) as [cfg|] eqn:Hset; cbn; [|reflexivity].
  match goal with
  | |- context [send_tips bot ?s] =>
      destruct (send_tips_result bot s Hsend) as [Hr|(e & Hr & He)];
      destruct (send_tips bot s) as [r s' evs]; cbn in Hr; subst r
  end; cbn.
  - reflexivity.
  - rewrite He. reflexivity.
Qed.

(** X11 on a thread that cannot be started. *)
Lemma X11_on_enable_contains_failures_witness :
  res (on_enable (inr tt) (inl ThreadError) (Some flaky_bot)
         (final (__init__ (inr tt) (inr main_toml) (inr (toml_with_tip "ready"))
                   (inr tt) (inr tt) blank)))
  = inr tt.
Proof.
  apply (X11_on_enable_contains_failures (inl ThreadError) (Some flaky_bot) _ true).
  - reflexivity.
  - intros e [= <-]. reflexivity.
  - intros b wxid text e [= <-]. cbn.
    destruct (String.eqb wxid "wxid_admin1"); intros [= <-]. reflexivity.
Defined.

(** X12. With the gateway enabled, the thread started, a bot handle and a
    non-empty tip, every configured admin is sent the tip exactly once, in
    the configured order, whether or not the sends before it succeeded. *)
Theorem X12_every_admin_is_sent_the_tip
  (b : Bot) (self : OpenAIAPI) (cfg : GatewayConfig) (l : list string) :
  enable self = Some true ->
  settings self = Some cfg ->
  admins self = Some l ->
  command_tip cfg <> "" ->
  (forall wxid text e, send_text_message b wxid text = inl e -> is_Exception e = true) ->
  sent_texts (emitted (on_enable (inr tt) (inr tt) (Some b) self))
  = map (fun admin => (admin, command_tip cfg)) l.
Proof.
  intros Hen Hset Hadm Htip Hsend.
  apply truthy_true_iff in Htip.
  destruct self as [en st d a ap sv th]. cbn in Hen, Hset, Hadm. subst en st a.
  unfold on_enable, try_except, send_tips, bind, lift, getattr, set_server_thread,
    emit.
  cbn. rewrite Htip. cbn.
  match goal with
  | |- context [notify_admins b l ?s] =>
      destruct (notify_admins_tries_all b Hsend l s cfg eq_refl) as [Hr Hs];
      destruct (notify_admins b l s) as [r s' evs]; cbn in Hr, Hs; subst r
  end.
  cbn. exact Hs.
Qed.

(** X12 on two admins, the first of which cannot be reached. *)
Lemma X12_every_admin_is_sent_the_tip_witness :
  sent_texts
    (emitted (on_enable (inr tt) (inr tt) (Some flaky_bot)
                (final (__init__ (inr tt) (inr main_toml)
                          (inr (toml_with_tip "ready")) (inr tt) (inr tt) blank))))
  = [("wxid_admin1", "ready"); ("wxid_admin2", "ready")].
Proof.
  refine (X12_every_admin_is_sent_the_tip flaky_bot _
            (read_settings
               (mkTable (Some true) None None None None None None (Some "ready")
                  None None None None None None None None None))
            ["wxid_admin1"; "wxid_admin2"] _ _ _ _ _).
  - reflexivity.
  - reflexivity.
  - reflexivity.
  - discriminate.
  - intros wxid text e. cbn.
    destruct (String.eqb wxid "wxid_admin1"); intros [= <-]. reflexivity.
Defined.

(** X13. The tips depend on the thread: when [start()] raises, [on_enable]
    logs the failure and returns, no admin is notified, and
    [server_thread] keeps the thread object that never ran. *)
Theorem X13_no_tips_when_thread_fails
  (bot : option Bot) (self : OpenAIAPI) (e : pyexn) :
  enable self = Some true ->
  is_Exception e = true ->
  let run := on_enable (inr tt) (inl e) bot self in
  res run = inr tt /\
  emitted run
  = [Log "error" ("启动OpenAIAPI服务器失败: " ++ exn_str e); LogTraceback] /\
  sent_texts (emitted run) = [] /\
  server_thread (final run) = Some (Some DaemonThread).
Proof.
  intros Hen He. cbv zeta.
  unfold on_enable, try_except, bind, lift, getattr, set_server_thread, emit.
  rewrite Hen. cbn. rewrite He. cbn. repeat split.
Qed.

(** X13 on a host that cannot create threads. *)
Lemma X13_no_tips_when_thread_fails_witness :
  sent_texts
    (emitted (on_enable (inr tt) (inl ThreadError) (Some reliable_bot)
                (final (__init__ (inr tt) (inr main_toml)
                          (inr (toml_with_tip "ready")) (inr tt) (inr tt) blank))))
  = [].
Proof.
  refine (proj1 (proj2 (proj2
            (X13_no_tips_when_thread_fails (Some reliable_bot) _ ThreadError _ _))));
    reflexivity.
Defined.

Ltac frame_done :=
  solve [repeat split;
         (reflexivity || (left; reflexivity) || (right; reflexivity))].

(** X14. [on_enable] assigns nothing but [server_thread]: the flag, the
    settings, the admins, the application and, above all, [server] are
    after the call what they were before it.  The server object is created
    by the thread, not by the hook. *)
Theorem X14_on_enable_only_sets_the_thread
  (PluginBase_on_enable thread_start : result unit) (bot : option Bot)
  (self : OpenAIAPI) :
  let after := final (on_enable PluginBase_on_enable thread_start bot self) in
  enable after = enable self /\
  settings after = settings self /\
  db after = db self /\
  admins after = admins self /\
  app after = app self /\
  server after = server self /\
  (server_thread after = server_thread self \/
   server_thread after = Some (Some DaemonThread)).
Proof.
  cbv zeta. destruct self as [en st d ad ap sv th].
  unfold on_enable, bind, lift, getattr.
  destruct PluginBase_on_enable as [e|[]]; cbn; [frame_done|].
  destruct en as [[|]|]; cbn; try frame_done.
  unfold try_except, bind, set_server_thread, lift, emit, getattr. cbn [settings].
  destruct thread_start as [[[|] cls msg]|[]]; cbn; try frame_done.
  destruct st as [cfg|]; cbn; [|frame_done].
  match goal with
  | |- context [send_tips bot ?s] =>
      pose proof (send_tips_final bot s) as Hf;
      destruct (send_tips bot s) as [[[[|] cls msg]|[]] s' evs]; cbn in Hf; subst s'
  end; cbn; frame_done.
Qed.

(** X15. A shutdown requested before the thread has built the server is
    lost: with [server] still [None], [on_disable] sets no flag and logs
    nothing, and the server the thread builds afterwards has
    [should_exit = False].  In the other order the flag is set. *)
Theorem X15_disable_before_server_exists_is_lost
  (self : OpenAIAPI) (a : FastAPIApp) (cfg : GatewayConfig) :
  server self = Some None ->
  app self = Some a ->
  settings self = Some cfg ->
  let early := on_disable (inr tt) self in
  res early = inr tt /\
  emitted early = [] /\
  server (final (_run_server (final early))) = Some (Some (mkServer false)) /\
  server (final (on_disable (inr tt) (final (_run_server self))))
  = Some (Some (mkServer true)).
Proof.
  intros Hsrv Happ Hset. cbv zeta.
  destruct self as [en st d ad ap sv th]. cbn in Hsrv, Happ, Hset. subst sv ap st.
  repeat split.
Qed.

(** X15 on a plugin that was built, enabled and disabled at once. *)
Lemma X15_disable_before_server_exists_is_lost_witness :
  let built :=
    final (__init__ (inr tt) (inr main_toml) (inr (toml_with_tip ""))
             (inr tt) (inr tt) blank) in
  let enabled := final (on_enable (inr tt) (inr tt) None built) in
  server (final (_run_server (final (on_disable (inr tt) enabled))))
  = Some (Some (mkServer false)).
Proof.
  cbv zeta.
  refine (proj1 (proj2 (proj2
            (X15_disable_before_server_exists_is_lost _
               (mkApp [("GET", "/v1/models"); ("POST", "/v1/chat/completions");
                       ("GET", "/"); ("GET", "/docs")])
               (read_settings
                  (mkTable (Some true) None None None None None None (Some "")
                     None None None None None None None None None))
               _ _ _)))); reflexivity.
Defined.

(** X16. After a construction that succeeded, [on_disable] returns
    normally whatever calls came before it (enabling, the thread building
    the server, earlier shutdowns, in any order and number), and it leaves
    either no server or a server told to exit. *)
Theorem X16_on_disable_after_any_history
  (m : MainToml) (t : PluginToml) (hs : list hook) :
  let built := final (__init__ (inr tt) (inr m) (inr t) (inr tt) (inr tt) blank) in
  let run := on_disable (inr tt) (after_hooks hs built) in
  res run = inr tt /\
  (server (final run) = Some None \/
   server (final run) = Some (Some (mkServer true))).
Proof.
  cbv zeta.
  set (built := final (__init__ (inr tt) (inr m) (inr t) (inr tt) (inr tt) blank)).
  assert (H : server (after_hooks hs built) <> None).
  { apply after_hooks_keep_server. discriminate. }
  destruct (server (after_hooks hs built)) as [srv|] eqn:Hs; [|congruence].
  destruct (on_disable_initialised _ srv Hs) as [Hr Hf].
  split; [exact Hr|]. rewrite Hf. destruct srv; cbn; auto.
Qed.

(** X17. [on_disable] is idempotent and touches nothing but the server's
    flag: with [server] assigned, the object after the call is the object
    before it with [should_exit = True] on its server, if it has one; every
    other attribute ([enable], the settings, [db], [admins], [app],
    [server_thread]) is as before; a repeated call returns normally and
    leaves the object as the first call left it. *)
Theorem X17_on_disable_is_idempotent (self : OpenAIAPI) (srv : option Server) :
  server self = Some srv ->
  let once := final (on_disable (inr tt) self) in
  once
  = mkPlugin (enable self) (settings self) (db self) (admins self) (app self)
      (Some (option_map (fun _ => mkServer true) srv)) (server_thread self) /\
  res (on_disable (inr tt) once) = inr tt /\
  final (on_disable (inr tt) once) = once /\
  enable once = enable self /\
  settings once = settings self /\
  db once = db self /\
  admins once = admins self /\
  app once = app self /\
  server_thread once = server_thread self.
Proof.
  intros Hsrv. cbv zeta.
  destruct self as [en st d ad ap sv th]. cbn in Hsrv. subst sv.
  destruct srv as [s|]; repeat split.
Qed.

(** X17 on a server that is running. *)
Lemma X17_on_disable_is_idempotent_witness :
  let running := mkPlugin (Some true) (Some default_settings) (Some tt) (Some [])
                   (Some (mkApp [])) (Some (Some (mkServer false)))
                   (Some (Some DaemonThread)) in
  final (on_disable (inr tt) running)
  = mkPlugin (Some true) (Some default_settings) (Some tt) (Some [])
      (Some (mkApp [])) (Some (Some (mkServer true))) (Some (Some DaemonThread)) /\
  final (on_disable (inr tt) (final (on_disable (inr tt) running)))
  = final (on_disable (inr tt) running).
Proof.
  cbv zeta.
  refine ((fun H => conj (proj1 H) (proj1 (proj2 (proj2 H))))
            (X17_on_disable_is_idempotent _ (Some (mkServer false)) _));
    reflexivity.
Defined.
